(** * VisionCut AI client (frontend/src/App.jsx): a shallow embedding

    The React component [App] is modelled as a timed event machine.  Every
    handler of the component is an action in a small state-and-exception
    monad over the machine; an [await] ends a segment and parks the rest of
    the handler in the table of pending requests; [setInterval] registers a
    timer whose firing runs the polling callback.  The exceptions are the
    rejections of the requests and the TypeErrors of the language: a
    property read on [undefined] or [null], and a value without a string
    form written into a template literal.  What [App] returns to be
    rendered is not part of the model. *)

From Stdlib Require Import ZArith NArith String Ascii DecimalString Bool Lia.
From stdpp Require Import base option list gmap.

Set Warnings "-register-all".
Open Scope Z_scope.

(** ** JavaScript strings and values *)

(** A JavaScript string is a sequence of UTF-16 code units. *)
Definition jstring := list N.

(** An ASCII literal of the source as a JavaScript string. *)
Definition u (s : string) : jstring := map N_of_ascii (list_ascii_of_string s).
Arguments u : simpl never.

Fixpoint jstr_eqb (a b : jstring) : bool :=
  match a, b with
  | [], [] => true
  | x :: a', y :: b' => (x =? y)%N && jstr_eqb a' b'
  | _, _ => false
  end.

(** The code units removed by [String.prototype.trim]: ECMAScript WhiteSpace
    (TAB, VT, FF, SP, NBSP, ZWNBSP and the Unicode space separators) and
    LineTerminator (LF, CR, LS, PS). *)
Definition is_js_space (c : N) : bool :=
  ((c =? 9) || (c =? 10) || (c =? 11) || (c =? 12) || (c =? 13) || (c =? 32)
   || (c =? 160) || (c =? 5760) || ((8192 <=? c) && (c <=? 8202))
   || (c =? 8232) || (c =? 8233) || (c =? 8239) || (c =? 8287)
   || (c =? 12288) || (c =? 65279))%N.

Fixpoint trim_start (s : jstring) : jstring :=
  match s with
  | c :: s' => if is_js_space c then trim_start s' else s
  | [] => []
  end.

Definition trim_end (s : jstring) : jstring := rev (trim_start (rev s)).

(** [s.trim()] *)
Definition trim (s : jstring) : jstring := trim_end (trim_start s).

(** The values a parsed JSON body (or a piece of component state) can hold.
    [JNum z] is the Number written as the integer [z], that is the double
    nearest to [z]: the integer itself up to 2^53, and beyond that two
    integers with the same nearest double stand for one Number; 0 and -0
    are not told apart.  [JReal text] is any other Number (33.5, 1e-7, the
    Infinity of an overflowing literal), kept as the text Number::toString
    gives for it: the component only tests a Number for truth and writes
    it into a string.  An object is its list of own properties, a later
    binding of a key overriding an earlier one. *)
Inductive jsval : Type :=
| JUndef
| JNull
| JBool (b : bool)
| JNum (z : Z)
| JReal (text : jstring)
| JStr (s : jstring)
| JArr (items : list jsval)
| JObj (fields : list (jstring * jsval)).

(** ToBoolean: what [if (v)], [!v] and [v || w] test. *)
Definition truthy (v : jsval) : bool :=
  match v with
  | JUndef | JNull => false
  | JBool b => b
  | JNum z => negb (z =? 0)
  | JReal _ => true
  | JStr s => match s with [] => false | _ => true end
  | JArr _ | JObj _ => true
  end.

(** [a || b] *)
Definition js_or (a b : jsval) : jsval := if truthy a then a else b.

(** [v === 'literal'] *)
Definition is_str (v : jsval) (lit : jstring) : bool :=
  match v with
  | JStr s => jstr_eqb s lit
  | _ => false
  end.

Fixpoint lookup_field (k : jstring) (fs : list (jstring * jsval)) : jsval :=
  match fs with
  | [] => JUndef
  | (k', v) :: fs' =>
      match lookup_field k fs' with
      | JUndef => if jstr_eqb k' k then v else JUndef
      | w => w
      end
  end.

(** [v.k] for the property names the component reads (none of them is a
    built-in property of strings, numbers, booleans or arrays).  [None]
    stands for the TypeError raised on [undefined] and [null]. *)
Definition get_prop (v : jsval) (k : jstring) : option jsval :=
  match v with
  | JUndef | JNull => None
  | JObj fs => Some (lookup_field k fs)
  | _ => Some JUndef
  end.

(** [k in v] for the own properties of a parsed object. *)
Definition has_key (k : jstring) (fs : list (jstring * jsval)) : bool :=
  existsb (fun kv => jstr_eqb (fst kv) k) fs.

(** *** Number::toString for the integers *)

Definition decimal (n : Z) : jstring := u (NilZero.string_of_int (Z.to_int n)).

(** The double nearest to the integer [n > 0]: 53 significant bits, a tie
    going to the even one.  A result of 2^1024 or more stands for
    Infinity. *)
Definition nearest_double (n : Z) : Z :=
  let s := Z.log2 n - 52 in
  if s <=? 0 then n
  else
    let q := Z.shiftr n s in
    let r := n - Z.shiftl q s in
    let half := Z.shiftl 1 (s - 1) in
    Z.shiftl (if (half <? r) || ((r =? half) && Z.odd q) then q + 1 else q) s.

(** The integer with the fewest significant digits, at least [k], whose
    nearest double is [v], a double of [d] digits; among those of one
    length the one closest to [v]. *)
Fixpoint shortest (fuel : nat) (k d v : Z) : Z :=
  match fuel with
  | O => v
  | S fuel' =>
      let p := 10 ^ (d - k) in
      let lo := v / p * p in
      let hi := lo + p in
      let ok_lo := nearest_double lo =? v in
      let ok_hi := nearest_double hi =? v in
      if ok_lo && ok_hi then
        if v - lo <? hi - v then lo
        else if hi - v <? v - lo then hi
        else if Z.even (lo / p) then lo else hi
      else if ok_lo then lo
      else if ok_hi then hi
      else shortest fuel' (k + 1) d v
  end.

Fixpoint drop_zeros (s : jstring) : jstring :=
  match s with
  | c :: s' => if (c =? 48)%N then drop_zeros s' else s
  | [] => []
  end.

(** The digits of [c > 0] as Number::toString lays them out: in full below
    10^21, and with an exponent from there on. *)
Definition layout (c : Z) : jstring :=
  if c <? 10 ^ 21 then decimal c
  else
    let exponent := decimal (Z.of_nat (length (decimal c)) - 1) in
    match rev (drop_zeros (rev (decimal c))) with
    | [] => []
    | [d1] => [d1] ++ u "e+" ++ exponent
    | d1 :: more => [d1] ++ u "." ++ more ++ u "e+" ++ exponent
    end.

Definition number_to_string (z : Z) : jstring :=
  if z =? 0 then u "0"
  else
    let v := nearest_double (Z.abs z) in
    (if z <? 0 then u "-" else [])
    ++ (if 2 ^ 1024 <=? v then u "Infinity"
        else
          let d := Z.of_nat (length (decimal v)) in
          layout (shortest (Z.to_nat d) 1 d v)).
Arguments number_to_string : simpl never.

(** ToString, as applied by a template literal; [None] stands for the
    TypeError it raises.  A parsed object has no callable property of its
    own, so an own [toString] key hides [Object.prototype.toString] and the
    conversion fails; without that key the object renders as
    "[object Object]".  An array joins the renderings of its items, and
    fails when one of them does. *)
Fixpoint to_string (v : jsval) : option jstring :=
  match v with
  | JUndef => Some (u "undefined")
  | JNull => Some (u "null")
  | JBool true => Some (u "true")
  | JBool false => Some (u "false")
  | JNum z => Some (number_to_string z)
  | JReal text => Some text
  | JStr s => Some s
  | JArr l =>
      (fix join (l : list jsval) : option jstring :=
         match l with
         | [] => Some []
         | x :: rest =>
             match match x with JUndef | JNull => Some [] | _ => to_string x end with
             | None => None
             | Some sx =>
                 match rest with
                 | [] => Some sx
                 | _ => match join rest with
                        | Some sr => Some (sx ++ u "," ++ sr)
                        | None => None
                        end
                 end
             end
         end) l
  | JObj fs => if has_key (u "toString") fs then None else Some (u "[object Object]")
  end.

(** A thrown value: an [Error], of which the handlers only read the
    [message]. *)
Record Error : Type := { message : jstring }.

(** The TypeError of a property read on [undefined] or [null] (V8 wording). *)
Definition type_error (v : jsval) (k : jstring) : Error :=
  {| message := u "Cannot read properties of "
                ++ match v with JNull => u "null" | _ => u "undefined" end
                ++ u " (reading '" ++ k ++ u "')" |}.

(** The TypeError of a ToString that fails (V8 wording). *)
Definition cannot_convert : Error :=
  {| message := u "Cannot convert object to primitive value" |}.

(** ** Component state *)

(** A [File] chosen in the file input. *)
Record File : Type := { file_name : jstring; file_blob : N }.

Inductive form_value : Type :=
| FormFile (f : File)
| FormText (s : jstring).

Definition FormData := list (jstring * form_value).

Record Outputs : Type := {
  youtube : jsval;
  instagram : jsval;
  tiktok : jsval;
  master : jsval
}.

(** The [useState] cells of [App] that the handlers read or write. *)
Record AppState : Type := {
  videoFile : option File;
  videoPreview : option jstring;
  prompt : jstring;
  projectId : jsval;
  status : jsval;
  progress : jsval;
  aiUnderstanding : list jstring;
  terminalLogs : list jstring;
  outputs : Outputs
}.

Definition initial_app : AppState := {|
  videoFile := None;
  videoPreview := None;
  prompt := [];
  projectId := JNull;
  status := JStr [];
  progress := JNum 0;
  aiUnderstanding := [u "Waiting for prompt & video..."];
  terminalLogs := [u "[AI] System ready."];
  outputs := {| youtube := JNull; instagram := JNull; tiktok := JNull; master := JNull |}
|}.

Definition with_videoFile (v : option File) (a : AppState) : AppState :=
  {| videoFile := v; videoPreview := videoPreview a; prompt := prompt a;
     projectId := projectId a; status := status a; progress := progress a;
     aiUnderstanding := aiUnderstanding a; terminalLogs := terminalLogs a;
     outputs := outputs a |}.

Definition with_videoPreview (v : option jstring) (a : AppState) : AppState :=
  {| videoFile := videoFile a; videoPreview := v; prompt := prompt a;
     projectId := projectId a; status := status a; progress := progress a;
     aiUnderstanding := aiUnderstanding a; terminalLogs := terminalLogs a;
     outputs := outputs a |}.

Definition with_prompt (v : jstring) (a : AppState) : AppState :=
  {| videoFile := videoFile a; videoPreview := videoPreview a; prompt := v;
     projectId := projectId a; status := status a; progress := progress a;
     aiUnderstanding := aiUnderstanding a; terminalLogs := terminalLogs a;
     outputs := outputs a |}.

Definition with_projectId (v : jsval) (a : AppState) : AppState :=
  {| videoFile := videoFile a; videoPreview := videoPreview a; prompt := prompt a;
     projectId := v; status := status a; progress := progress a;
     aiUnderstanding := aiUnderstanding a; terminalLogs := terminalLogs a;
     outputs := outputs a |}.

Definition with_status (v : jsval) (a : AppState) : AppState :=
  {| videoFile := videoFile a; videoPreview := videoPreview a; prompt := prompt a;
     projectId := projectId a; status := v; progress := progress a;
     aiUnderstanding := aiUnderstanding a; terminalLogs := terminalLogs a;
     outputs := outputs a |}.

Definition with_progress (v : jsval) (a : AppState) : AppState :=
  {| videoFile := videoFile a; videoPreview := videoPreview a; prompt := prompt a;
     projectId := projectId a; status := status a; progress := v;
     aiUnderstanding := aiUnderstanding a; terminalLogs := terminalLogs a;
     outputs := outputs a |}.

Definition with_aiUnderstanding (v : list jstring) (a : AppState) : AppState :=
  {| videoFile := videoFile a; videoPreview := videoPreview a; prompt := prompt a;
     projectId := projectId a; status := status a; progress := progress a;
     aiUnderstanding := v; terminalLogs := terminalLogs a;
     outputs := outputs a |}.

Definition with_terminalLogs (v : list jstring) (a : AppState) : AppState :=
  {| videoFile := videoFile a; videoPreview := videoPreview a; prompt := prompt a;
     projectId := projectId a; status := status a; progress := progress a;
     aiUnderstanding := aiUnderstanding a; terminalLogs := v;
     outputs := outputs a |}.

Definition with_outputs (v : Outputs) (a : AppState) : AppState :=
  {| videoFile := videoFile a; videoPreview := videoPreview a; prompt := prompt a;
     projectId := projectId a; status := status a; progress := progress a;
     aiUnderstanding := aiUnderstanding a; terminalLogs := terminalLogs a;
     outputs := v |}.

(** ** The runtime around the component *)

(** What the component does to the outside world. *)
Inductive effect : Type :=
| Alert (msg : jstring)
| ConsoleError (label : jstring) (err : Error)
| HttpPost (url : jstring) (body : option FormData)
| HttpGet (url : jstring)
| SetInterval (handle : nat) (ms : Z)
| ClearInterval (handle : nat)
| WindowOpen (url target : jstring).

(** The rest of a handler parked at an [await]. *)
Inductive Pending : Type :=
| PUpload
| PProcess (projId : jsval)
| PStatus (handle : nat).

(** A timer made by [setInterval] in [pollStatus]; its callback polls the
    status of [iv_proj]. *)
Record Interval : Type := {
  iv_proj : jsval;
  iv_period : Z;
  iv_next : Z;
  iv_active : bool
}.

(** The request table is indexed by request number and the timer table by
    timer handle; a settled request leaves [None] behind. *)
Record Machine : Type := {
  app : AppState;
  now : Z;
  pending : list (option Pending);
  intervals : list Interval;
  trace : list (Z * effect)
}.

Definition initial_machine : Machine :=
  {| app := initial_app; now := 0; pending := []; intervals := []; trace := [] |}.

Definition with_app (f : AppState -> AppState) (m : Machine) : Machine :=
  {| app := f (app m); now := now m; pending := pending m;
     intervals := intervals m; trace := trace m |}.

Definition with_now (t : Z) (m : Machine) : Machine :=
  {| app := app m; now := t; pending := pending m;
     intervals := intervals m; trace := trace m |}.

Definition with_pending (p : list (option Pending)) (m : Machine) : Machine :=
  {| app := app m; now := now m; pending := p;
     intervals := intervals m; trace := trace m |}.

Definition with_intervals (l : list Interval) (m : Machine) : Machine :=
  {| app := app m; now := now m; pending := pending m;
     intervals := l; trace := trace m |}.

Definition with_trace (tr : list (Z * effect)) (m : Machine) : Machine :=
  {| app := app m; now := now m; pending := pending m;
     intervals := intervals m; trace := tr |}.

(** ** Handlers as actions *)

Inductive outcome (A : Type) : Type :=
| Ret (a : A)
| Throw (e : Error).
Arguments Ret {A} a.
Arguments Throw {A} e.

Definition Act (A : Type) : Type := Machine -> outcome A * Machine.

Definition ret {A} (a : A) : Act A := fun m => (Ret a, m).

Definition throw {A} (e : Error) : Act A := fun m => (Throw e, m).

Definition bind {A B} (x : Act A) (k : A -> Act B) : Act B :=
  fun m =>
    match x m with
    | (Ret a, m') => k a m'
    | (Throw e, m') => (Throw e, m')
    end.

(** [try { body } catch (error) { handler }] *)
Definition try_catch (body : Act unit) (handler : Error -> Act unit) : Act unit :=
  fun m =>
    match body m with
    | (Ret tt, m') => (Ret tt, m')
    | (Throw e, m') => handler e m'
    end.

#[global] Instance act_ret : MRet Act := @ret.
#[global] Instance act_bind : MBind Act := fun A B k x => bind x k.

Definition exec (a : Act unit) (m : Machine) : Machine := snd (a m).

Definition read {A} (f : AppState -> A) : Act A := fun m => (Ret (f (app m)), m).

Definition update (f : AppState -> AppState) : Act unit :=
  fun m => (Ret tt, with_app f m).

Definition emit (e : effect) : Act unit :=
  fun m => (Ret tt, with_trace (trace m ++ [(now m, e)]) m).

Definition when (b : bool) (a : Act unit) : Act unit := if b then a else ret tt.

(** ** Primitives the handlers call *)

Definition API_BASE : jstring := u "http://localhost:8000".

Definition bullet : jstring := [8226%N].
Definition check_mark : jstring := [10003%N].
Definition ballot_x : jstring := [10007%N].

Definition setVideoFile (v : option File) : Act unit := update (with_videoFile v).
Definition setVideoPreview (v : option jstring) : Act unit := update (with_videoPreview v).
Definition setPrompt (v : jstring) : Act unit := update (with_prompt v).
Definition setProjectId (v : jsval) : Act unit := update (with_projectId v).
Definition setStatus (v : jsval) : Act unit := update (with_status v).
Definition setProgress (v : jsval) : Act unit := update (with_progress v).
Definition setAiUnderstanding (v : list jstring) : Act unit := update (with_aiUnderstanding v).
Definition setOutputs (v : Outputs) : Act unit := update (with_outputs v).

(** [setTerminalLogs(prev => [...prev, `[AI] ${msg}`])] *)
Definition addLog (msg : jstring) : Act unit :=
  update (fun a => with_terminalLogs (terminalLogs a ++ [u "[AI] " ++ msg]) a).

Definition alert (msg : jstring) : Act unit := emit (Alert msg).

(** [v.k], with the TypeError of a read on [undefined] or [null]. *)
Definition prop (v : jsval) (k : string) : Act jsval :=
  match get_prop v (u k) with
  | Some x => mret x
  | None => throw (type_error v (u k))
  end.

(** [`${v}`]: the value written into a template literal, with the TypeError
    of a value that has no string form. *)
Definition interpolate (v : jsval) : Act jstring :=
  match to_string v with
  | Some s => mret s
  | None => throw cannot_convert
  end.

(** How a request ends: a 2xx response with its parsed body, or a rejection. *)
Inductive http_result : Type :=
| HttpOk (data : jsval)
| HttpFail (err : Error).

(** The value of [(await request).data] once the request has ended. *)
Definition await (r : http_result) : Act jsval :=
  match r with
  | HttpOk data => mret data
  | HttpFail err => throw err
  end.

Definition park (k : Pending) : Act unit :=
  fun m => (Ret tt, with_pending (pending m ++ [Some k]) m).

Definition axios_post (url : jstring) (body : option FormData) (k : Pending) : Act unit :=
  emit (HttpPost url body);; park k.

Definition axios_get (url : jstring) (k : Pending) : Act unit :=
  emit (HttpGet url);; park k.

Definition setInterval (proj : jsval) (ms : Z) : Act nat :=
  fun m =>
    let h := length (intervals m) in
    let iv := {| iv_proj := proj; iv_period := ms; iv_next := now m + ms;
                 iv_active := true |} in
    (Ret h, with_trace (trace m ++ [(now m, SetInterval h ms)])
              (with_intervals (intervals m ++ [iv]) m)).

Definition stopped (iv : Interval) : Interval :=
  {| iv_proj := iv_proj iv; iv_period := iv_period iv; iv_next := iv_next iv;
     iv_active := false |}.

Definition clearInterval (h : nat) : Act unit :=
  fun m =>
    (Ret tt, with_trace (trace m ++ [(now m, ClearInterval h)])
               (with_intervals (alter stopped h (intervals m)) m)).

(** ** The handlers of [App] *)

(** [handleVideoUpload]: [file] is [e.target.files[0]] and [url] what
    [URL.createObjectURL(file)] returns. *)
Definition handleVideoUpload (file : option File) (url : jstring) : Act unit :=
  match file with
  | Some f =>
      setVideoFile (Some f);;
      setVideoPreview (Some url);;
      addLog (u "Video uploaded: " ++ file_name f)
  | None => mret tt
  end.

Definition upload_form (file : File) (p : jstring) : FormData :=
  [ (u "video", FormFile file);
    (u "prompt", FormText p);
    (u "platforms", FormText (u "youtube,instagram,tiktok")) ].

Definition upload_url : jstring := API_BASE ++ u "/api/upload/multiplatform".

(** The three URLs made from a project identifier; [projId] is the
    identifier as the template literal has written it. *)
Definition process_url (projId : jstring) : jstring :=
  API_BASE ++ u "/api/process/complete/" ++ projId.

Definition status_url (projId : jstring) : jstring :=
  API_BASE ++ u "/api/status/" ++ projId ++ u "/detailed".

Definition download_url (projId : jstring) (platform : jstring) : jstring :=
  API_BASE ++ u "/api/download/" ++ projId ++ u "/" ++ platform.

Definition processing_failed : jstring := u "Processing failed. Please try again.".

(** The [catch] block of [startEditing]. *)
Definition startEditing_catch (error : Error) : Act unit :=
  emit (ConsoleError (u "Error:") error);;
  addLog (u "Error: " ++ message error);;
  alert processing_failed.

(** [pollStatus]: the body only registers the timer. *)
Definition pollStatus (projId : jsval) : Act unit :=
  _ ← setInterval projId 2000; mret tt.

(** [startEditing], up to its first [await]. *)
Definition startEditing : Act unit :=
  vf ← read videoFile;
  match vf with
  | None => alert (u "Please upload a video first")
  | Some file =>
      p ← read prompt;
      if negb (truthy (JStr (trim p))) then
        alert (u "Please enter a prompt describing what you want")
      else
        try_catch
          (setAiUnderstanding
             [ bullet ++ u " Analyzing your prompt...";
               bullet ++ u " Detecting required operations";
               bullet ++ u " Planning multi-platform optimization";
               bullet ++ u " YouTube (16:9), Instagram (9:16), TikTok (9:16)";
               bullet ++ u " Preparing emotion analysis";
               bullet ++ u " Setting up audio enhancement" ];;
           addLog (u "Uploading video...");;
           axios_post upload_url (Some (upload_form file p)) PUpload)
          startEditing_catch
  end.

(** [startEditing], from the upload response to the second [await].  The
    URL of the start-processing request is made before the request is
    issued, and making it fails for an identifier without a string form. *)
Definition startEditing_uploaded (uploadRes : http_result) : Act unit :=
  try_catch
    (data ← await uploadRes;
     projId ← prop data "project_id";
     setProjectId projId;;
     addLog (u "Video uploaded successfully!");;
     addLog (u "Starting AI analysis...");;
     rendered ← interpolate projId;
     axios_post (process_url rendered) None (PProcess projId))
    startEditing_catch.

(** [startEditing], after the start-processing response. *)
Definition startEditing_started (projId : jsval) (processRes : http_result) : Act unit :=
  try_catch
    (_ ← await processRes;
     setStatus (JStr (u "processing"));;
     addLog (u "AI Brain analyzing emotions and planning edits...");;
     pollStatus projId)
    startEditing_catch.

(** The [catch] block of the timer callback. *)
Definition poll_catch (error : Error) : Act unit :=
  emit (ConsoleError (u "Status poll error:") error).

(** The timer callback of [pollStatus], up to its [await]. *)
Definition poll_request (projId : jsval) (interval : nat) : Act unit :=
  try_catch
    (rendered ← interpolate projId;
     axios_get (status_url rendered) (PStatus interval))
    poll_catch.

(** The timer callback of [pollStatus], after the status response.  A
    TypeError raised on the way (a body that is [null], a field of the
    analysis without a string form) ends the callback in its [catch] block;
    what was set before stays set. *)
Definition poll_response (interval : nat) (res : http_result) : Act unit :=
  try_catch
    (data ← await res;
     st ← prop data "status";
     setStatus st;;
     pp ← prop data "progress_percentage";
     setProgress (js_or pp (JNum 0));;
     analysis ← prop data "ai_analysis";
     when (truthy analysis)
       (mode ← prop analysis "mode";
        mode ← interpolate (js_or mode (JStr (u "custom")));
        emotion ← prop analysis "detected_emotion";
        emotion ← interpolate (js_or emotion (JStr (u "balanced")));
        count ← prop analysis "operations_count";
        count ← interpolate (js_or count (JNum 0));
        setAiUnderstanding
          [ bullet ++ u " Mode: " ++ mode;
            bullet ++ u " Detected emotion: " ++ emotion;
            bullet ++ u " Operations: " ++ count;
            bullet ++ u " Platforms: YouTube, Instagram, TikTok";
            bullet ++ u " Audio enhancement: Active";
            bullet ++ u " Subtitle generation: Active" ]);;
     st ← prop data "status";
     (if is_str st (u "analyzing") then
        addLog (u "Analyzing emotions and audio features...")
      else if is_str st (u "processing") then
        addLog (u "Applying AI-powered edits...");;
        addLog (u "Removing background noise...");;
        addLog (u "Enhancing audio quality...");;
        addLog (u "Analyzing emotions for smart trimming...");;
        addLog (u "Removing boring/dull parts...");;
        addLog (u "Generating synchronized subtitles...");;
        addLog (u "Adding background music...");;
        addLog (u "Optimizing for YouTube (16:9)...");;
        addLog (u "Optimizing for Instagram (9:16)...");;
        addLog (u "Optimizing for TikTok (9:16)...")
      else mret tt);;
     st ← prop data "status";
     when (is_str st (u "completed"))
       (clearInterval interval;;
        addLog (u "Processing complete! " ++ check_mark);;
        addLog (u "All platform versions ready for download");;
        ov ← prop data "output_video";
        setOutputs {| youtube := ov; instagram := ov; tiktok := ov; master := ov |});;
     st ← prop data "status";
     when (is_str st (u "failed"))
       (clearInterval interval;;
        addLog (u "Processing failed " ++ ballot_x);;
        alert processing_failed))
    poll_catch.

(** [downloadVideo]; nothing catches the TypeError of an identifier
    without a string form. *)
Definition downloadVideo (platform : jstring) : Act unit :=
  pid ← read projectId;
  if negb (truthy pid) then mret tt
  else
    rendered ← interpolate pid;
    emit (WindowOpen (download_url rendered platform) (u "_blank"));;
    addLog (u "Downloading " ++ platform ++ u " version...").

(** ** Events and the step function *)

(** What can happen to the component: the page calls one of its handlers
    ([handleVideoUpload], the [onChange] of the prompt, [startEditing],
    [downloadVideo]), a timer fires, or a request ends.  Which of the
    handlers the page as rendered lets the user reach is not modelled: a
    run may call any handler at any time. *)
Inductive event : Type :=
| ChooseFile (file : option File) (url : jstring)
| TypePrompt (value : jstring)
| ClickStart
| ClickDownload (platform : jstring)
| TimerFire (interval : nat)
| HttpDone (request : nat) (res : http_result).

(** Time does not run backwards, and it does not run past the due time of a
    live timer before that timer has fired. *)
Definition on_time (t : Z) (m : Machine) : bool :=
  (now m <=? t)
  && forallb (fun iv => negb (iv_active iv) || (t <=? iv_next iv)) (intervals m).

Definition rearmed (iv : Interval) : Interval :=
  {| iv_proj := iv_proj iv; iv_period := iv_period iv;
     iv_next := iv_next iv + iv_period iv; iv_active := iv_active iv |}.

Definition resume (k : Pending) (res : http_result) : Act unit :=
  match k with
  | PUpload => startEditing_uploaded res
  | PProcess projId => startEditing_started projId res
  | PStatus interval => poll_response interval res
  end.

Definition handle (ev : event) (m : Machine) : option Machine :=
  match ev with
  | ChooseFile file url => Some (exec (handleVideoUpload file url) m)
  | TypePrompt value => Some (exec (setPrompt value) m)
  | ClickStart => Some (exec startEditing m)
  | ClickDownload platform => Some (exec (downloadVideo platform) m)
  | TimerFire h =>
      match intervals m !! h with
      | Some iv =>
          if iv_active iv && (iv_next iv =? now m) then
            Some (exec (poll_request (iv_proj iv) h)
                    (with_intervals (<[h := rearmed iv]> (intervals m)) m))
          else None
      | None => None
      end
  | HttpDone rid res =>
      match pending m !! rid with
      | Some (Some k) =>
          Some (exec (resume k res) (with_pending (<[rid := None]> (pending m)) m))
      | _ => None
      end
  end.

(** One event at time [t]; [None] when the event cannot happen then. *)
Definition step (te : Z * event) (m : Machine) : option Machine :=
  if on_time (fst te) m then handle (snd te) (with_now (fst te) m) else None.

Fixpoint run (evs : list (Z * event)) (m : Machine) : option Machine :=
  match evs with
  | [] => Some m
  | te :: evs' =>
      match step te m with
      | Some m' => run evs' m'
      | None => None
      end
  end.

(** The machines the component can be in. *)
Definition reachable (m : Machine) : Prop :=
  exists evs, run evs initial_machine = Some m.

(** The machine after each event of a run, as far as the run goes. *)
Fixpoint states_along (evs : list (Z * event)) (m : Machine) : list Machine :=
  match evs with
  | [] => []
  | te :: evs' =>
      match step te m with
      | Some m' => m' :: states_along evs' m'
      | None => []
      end
  end.

(** The times at which a run fires the timer [h]. *)
Definition fire_times (h : nat) (evs : list (Z * event)) : list Z :=
  omap (fun te => match snd te with
                  | TimerFire h' => if Nat.eqb h' h then Some (fst te) else None
                  | _ => None
                  end) evs.

(** What one step added to the trace. *)
Definition emitted (m m' : Machine) : list effect :=
  map snd (drop (length (trace m)) (trace m')).

(** [v.k] where the read cannot raise. *)
Definition field (v : jsval) (k : string) : jsval :=
  default JUndef (get_prop v (u k)).

(** [s.split(sep)] for a separator of one code unit. *)
Fixpoint split_on (sep : N) (s : jstring) : list jstring :=
  match s with
  | [] => [[]]
  | c :: s' =>
      if (c =? sep)%N then [] :: split_on sep s'
      else match split_on sep s' with
           | w :: ws => (c :: w) :: ws
           | [] => [[c]]
           end
  end.

(** The platforms named in the upload form. *)
Definition requested_platforms (form : FormData) : list jstring :=
  flat_map (fun kv => match kv with
                      | (k, FormText v) =>
                          if jstr_eqb k (u "platforms") then split_on 44 v else []
                      | _ => []
                      end) form.

(** [outputs[platform]] *)
Definition output_of (o : Outputs) (platform : jstring) : jsval :=
  if jstr_eqb platform (u "youtube") then youtube o
  else if jstr_eqb platform (u "instagram") then instagram o
  else if jstr_eqb platform (u "tiktok") then tiktok o
  else if jstr_eqb platform (u "master") then master o
  else JUndef.

(** The value of [progress] after each of a sequence of status responses
    handled one after the other by the callback of timer [h]. *)
Fixpoint stored_progress (h : nat) (bodies : list jsval) (m : Machine) : list jsval :=
  match bodies with
  | [] => []
  | data :: rest =>
      let m' := exec (poll_response h (HttpOk data)) m in
      progress (app m') :: stored_progress h rest m'
  end.

(** A status body with a status and a progress percentage. *)
Definition status_body (st : string) (pct : Z) : jsval :=
  JObj [(u "status", JStr (u st)); (u "progress_percentage", JNum pct)].

Definition non_decreasing (l : list Z) : Prop :=
  forall i j x y, (i <= j)%nat -> l !! i = Some x -> l !! j = Some y -> x <= y.

(** ** The net effect of one handled status response *)

(** [`${v || fallback}`]; [None] when it raises. *)
Definition shown (v fallback : jsval) : option jstring := to_string (js_or v fallback).

(** The six lines shown under "AI Understanding" for an analysis object;
    [None] when one of the template literals raises. *)
Definition analysis_lines (analysis : jsval) : option (list jstring) :=
  match shown (field analysis "mode") (JStr (u "custom")),
        shown (field analysis "detected_emotion") (JStr (u "balanced")),
        shown (field analysis "operations_count") (JNum 0) with
  | Some mode, Some emotion, Some count =>
      Some [ bullet ++ u " Mode: " ++ mode;
             bullet ++ u " Detected emotion: " ++ emotion;
             bullet ++ u " Operations: " ++ count;
             bullet ++ u " Platforms: YouTube, Instagram, TikTok";
             bullet ++ u " Audio enhancement: Active";
             bullet ++ u " Subtitle generation: Active" ]
  | _, _, _ => None
  end.

(** The summary after a status body has been handled, from the summary
    before; [None] when the callback raises while making it. *)
Definition summary (data : jsval) (before : list jstring) : option (list jstring) :=
  if truthy (field data "ai_analysis") then analysis_lines (field data "ai_analysis")
  else Some before.

(** The callback gets past the summary: the body has no [ai_analysis], or
    one whose three fields can be written into the lines. *)
Definition summary_renders (data : jsval) : bool :=
  match summary data [] with
  | Some _ => true
  | None => false
  end.

(** The value of [data.progress_percentage || 0]. *)
Definition reported (data : jsval) : jsval :=
  js_or (field data "progress_percentage") (JNum 0).

(** The messages logged for a status, in order. *)
Definition status_logs (st : jsval) : list jstring :=
  (if is_str st (u "analyzing") then
     [u "Analyzing emotions and audio features..."]
   else if is_str st (u "processing") then
     [ u "Applying AI-powered edits...";
       u "Removing background noise...";
       u "Enhancing audio quality...";
       u "Analyzing emotions for smart trimming...";
       u "Removing boring/dull parts...";
       u "Generating synchronized subtitles...";
       u "Adding background music...";
       u "Optimizing for YouTube (16:9)...";
       u "Optimizing for Instagram (9:16)...";
       u "Optimizing for TikTok (9:16)..." ]
   else [])
  ++ (if is_str st (u "completed") then
        [ u "Processing complete! " ++ check_mark;
          u "All platform versions ready for download" ]
      else [])
  ++ (if is_str st (u "failed") then [u "Processing failed " ++ ballot_x] else []).

Definition logged (logs : list jstring) (msgs : list jstring) : list jstring :=
  foldl (fun l msg => l ++ [u "[AI] " ++ msg]) logs msgs.

(** What the callback of timer [h] does to the outside for a status. *)
Definition poll_effects (h : nat) (st : jsval) : list effect :=
  (if is_str st (u "completed") then [ClearInterval h] else [])
  ++ (if is_str st (u "failed") then [ClearInterval h; Alert processing_failed] else []).

Definition traced (t : Z) (tr : list (Z * effect)) (es : list effect) : list (Z * effect) :=
  foldl (fun tr e => tr ++ [(t, e)]) tr es.

(** What the status callback does to the component state for a body it
    handles to the end. *)
Definition polled (data : jsval) (a : AppState) : AppState :=
  let st := field data "status" in
  let ov := field data "output_video" in
  {| videoFile := videoFile a;
     videoPreview := videoPreview a;
     prompt := prompt a;
     projectId := projectId a;
     status := st;
     progress := reported data;
     aiUnderstanding := default (aiUnderstanding a) (summary data (aiUnderstanding a));
     terminalLogs := logged (terminalLogs a) (status_logs st);
     outputs :=
       if is_str st (u "completed")
       then {| youtube := ov; instagram := ov; tiktok := ov; master := ov |}
       else outputs a |}.

(** What it has done when making the summary raises: status and progress
    are set, and nothing else. *)
Definition poll_aborted (data : jsval) (a : AppState) : AppState :=
  with_progress (reported data) (with_status (field data "status") a).

(** The timers after the status callback of [h] has seen the status [st]. *)
Definition polled_timers (h : nat) (st : jsval) (ivs : list Interval) : list Interval :=
  (if is_str st (u "failed") then alter stopped h else id)
    ((if is_str st (u "completed") then alter stopped h else id) ivs).

(** The machine after the timer callback of [h] has handled the body [data]
    (a body that is neither [undefined] nor [null]); see
    [exec_poll_response]. *)
Definition after_poll (h : nat) (data : jsval) (m : Machine) : Machine :=
  if summary_renders data then
    {| app := polled data (app m);
       now := now m;
       pending := pending m;
       intervals := polled_timers h (field data "status") (intervals m);
       trace := traced (now m) (trace m) (poll_effects h (field data "status")) |}
  else
    {| app := poll_aborted data (app m);
       now := now m;
       pending := pending m;
       intervals := intervals m;
       trace := traced (now m) (trace m)
                  [ConsoleError (u "Status poll error:") cannot_convert] |}.

(** ** Concrete runs *)

Definition clip : File := {| file_name := u "clip.mp4"; file_blob := 1 |}.

(** A file is chosen, a prompt typed, and editing started; the upload
    answers with project [p1] and start-processing returns. *)
Definition started_p1 : list (Z * event) :=
  [ (0, ChooseFile (Some clip) (u "blob:1"));
    (1, TypePrompt (u " make it fun "));
    (2, ClickStart);
    (3, HttpDone 0%nat (HttpOk (JObj [(u "project_id", JStr (u "p1"))])));
    (4, HttpDone 1%nat (HttpOk JNull)) ].

(** One poll, answered [completed] by a body without [output_video]. *)
Definition completed_without_output : list (Z * event) :=
  started_p1 ++
  [ (2004, TimerFire 0%nat);
    (2005, HttpDone 2%nat (HttpOk (status_body "completed" 100))) ].

(** Two polls are in flight together (requests 2 and 3); their responses
    are handled in the order given. *)
Definition overlapping_polls (r1 r2 : nat * jsval) : list (Z * event) :=
  started_p1 ++
  [ (2004, TimerFire 0%nat);
    (4004, TimerFire 0%nat);
    (4005, HttpDone (fst r1) (HttpOk (snd r1)));
    (4006, HttpDone (fst r2) (HttpOk (snd r2))) ].

(** A value without a string form, as a server can send it:
    [{"toString": 1}]. *)
Definition unrenderable : jsval := JObj [(u "toString", JNum 1)].

(** A status body with an output and an analysis whose [mode] has no string
    form. *)
Definition unrenderable_summary (st : string) : jsval :=
  JObj [ (u "status", JStr (u st));
         (u "progress_percentage", JNum 100);
         (u "output_video", JStr (u "out/p1.mp4"));
         (u "ai_analysis", JObj [(u "mode", unrenderable)]) ].

(** One poll of the Job [p1], answered by [body]. *)
Definition one_poll (body : jsval) : list (Z * event) :=
  started_p1 ++
  [ (2004, TimerFire 0%nat);
    (2005, HttpDone 2%nat (HttpOk body)) ].

(** A second editing run is started while the Job [p1] is polled, and its
    upload ends as [res]. *)
Definition second_upload (res : http_result) : list (Z * event) :=
  started_p1 ++
  [ (5, ClickStart);
    (6, HttpDone 2%nat res) ].

(** The upload of the second run is answered with [p1] again, so that two
    timers poll [p1]; the poll of the first timer is answered [completed]
    and then the second timer polls and is answered [processing]. *)
Definition two_timers_on_p1 : list (Z * event) :=
  second_upload (HttpOk (JObj [(u "project_id", JStr (u "p1"))])) ++
  [ (7, HttpDone 3%nat (HttpOk JNull));
    (2004, TimerFire 0%nat);
    (2005, HttpDone 4%nat (HttpOk (status_body "completed" 100)));
    (2007, TimerFire 1%nat);
    (2008, HttpDone 5%nat (HttpOk (status_body "processing" 60))) ].

(** An editing run whose upload is answered with the project identifier
    [projId]. *)
Definition uploaded_as (projId : jsval) : list (Z * event) :=
  [ (0, ChooseFile (Some clip) (u "blob:1"));
    (1, TypePrompt (u " make it fun "));
    (2, ClickStart);
    (3, HttpDone 0%nat (HttpOk (JObj [(u "project_id", projId)]))) ].

(** An editing run for the project identifier [projId] that goes through:
    start-processing returns, and the first status poll is answered
    [completed] with an output. *)
Definition finished_run (projId : jsval) : list (Z * event) :=
  uploaded_as projId ++
  [ (4, HttpDone 1%nat (HttpOk JNull));
    (2004, TimerFire 0%nat);
    (2005, HttpDone 2%nat
             (HttpOk (JObj [ (u "status", JStr (u "completed"));
                             (u "output_video", JStr (u "out/0.mp4")) ]))) ].

(** ** Every step, rule by rule *)

(** The machine made from [m] at time [t]: the component state changed by
    [f], the effects [es] emitted, and the tables [p] and [ivs]. *)
Definition build (m : Machine) (t : Z) (f : AppState -> AppState)
    (es : list effect) (p : list (option Pending)) (ivs : list Interval) : Machine :=
  {| app := f (app m); now := t; pending := p; intervals := ivs;
     trace := traced t (trace m) es |}.

(** [addLog] of each message, in order. *)
Definition add_logs (msgs : list jstring) (a : AppState) : AppState :=
  with_terminalLogs (logged (terminalLogs a) msgs) a.

(** The value caught when reading [res.data.key] fails: the rejection of
    the request, or the TypeError of a body that is [undefined] or [null]. *)
Definition request_error (res : http_result) (key : string) : option Error :=
  match res with
  | HttpFail err => Some err
  | HttpOk data =>
      match get_prop data (u key) with
      | Some _ => None
      | None => Some (type_error data (u key))
      end
  end.

(** The six lines shown while the upload is under way. *)
Definition planning_lines : list jstring :=
  [ bullet ++ u " Analyzing your prompt...";
    bullet ++ u " Detecting required operations";
    bullet ++ u " Planning multi-platform optimization";
    bullet ++ u " YouTube (16:9), Instagram (9:16), TikTok (9:16)";
    bullet ++ u " Preparing emotion analysis";
    bullet ++ u " Setting up audio enhancement" ].

(** [outcome_of t m ev m'] lists, case by case, what an event does at time
    [t]; [step] follows these rules (lemma [step_outcome]). *)
Inductive outcome_of (t : Z) (m : Machine) : event -> Machine -> Prop :=
| O_choose_none (url : jstring) :
    outcome_of t m (ChooseFile None url)
      (build m t (fun a => a) [] (pending m) (intervals m))
| O_choose (f : File) (url : jstring) :
    outcome_of t m (ChooseFile (Some f) url)
      (build m t
         (fun a => add_logs [u "Video uploaded: " ++ file_name f]
                     (with_videoPreview (Some url) (with_videoFile (Some f) a)))
         [] (pending m) (intervals m))
| O_prompt (value : jstring) :
    outcome_of t m (TypePrompt value)
      (build m t (with_prompt value) [] (pending m) (intervals m))
| O_start_no_file :
    videoFile (app m) = None ->
    outcome_of t m ClickStart
      (build m t (fun a => a) [Alert (u "Please upload a video first")]
         (pending m) (intervals m))
| O_start_blank (file : File) :
    videoFile (app m) = Some file ->
    trim (prompt (app m)) = [] ->
    outcome_of t m ClickStart
      (build m t (fun a => a)
         [Alert (u "Please enter a prompt describing what you want")]
         (pending m) (intervals m))
| O_start_upload (file : File) :
    videoFile (app m) = Some file ->
    trim (prompt (app m)) <> [] ->
    outcome_of t m ClickStart
      (build m t
         (fun a => add_logs [u "Uploading video..."]
                     (with_aiUnderstanding planning_lines a))
         [HttpPost upload_url (Some (upload_form file (prompt (app m))))]
         (pending m ++ [Some PUpload]) (intervals m))
| O_download_unset (platform : jstring) :
    truthy (projectId (app m)) = false ->
    outcome_of t m (ClickDownload platform)
      (build m t (fun a => a) [] (pending m) (intervals m))
| O_download (platform rendered : jstring) :
    truthy (projectId (app m)) = true ->
    to_string (projectId (app m)) = Some rendered ->
    outcome_of t m (ClickDownload platform)
      (build m t (add_logs [u "Downloading " ++ platform ++ u " version..."])
         [WindowOpen (download_url rendered platform) (u "_blank")]
         (pending m) (intervals m))
| O_download_thrown (platform : jstring) :
    truthy (projectId (app m)) = true ->
    to_string (projectId (app m)) = None ->
    outcome_of t m (ClickDownload platform)
      (build m t (fun a => a) [] (pending m) (intervals m))
| O_fire (h : nat) (iv : Interval) (rendered : jstring) :
    intervals m !! h = Some iv ->
    iv_active iv = true ->
    iv_next iv = t ->
    to_string (iv_proj iv) = Some rendered ->
    outcome_of t m (TimerFire h)
      (build m t (fun a => a) [HttpGet (status_url rendered)]
         (pending m ++ [Some (PStatus h)])
         (<[h := rearmed iv]> (intervals m)))
| O_fire_thrown (h : nat) (iv : Interval) :
    intervals m !! h = Some iv ->
    iv_active iv = true ->
    iv_next iv = t ->
    to_string (iv_proj iv) = None ->
    outcome_of t m (TimerFire h)
      (build m t (fun a => a) [ConsoleError (u "Status poll error:") cannot_convert]
         (pending m)
         (<[h := rearmed iv]> (intervals m)))
| O_uploaded (rid : nat) (data projId : jsval) (rendered : jstring) :
    pending m !! rid = Some (Some PUpload) ->
    get_prop data (u "project_id") = Some projId ->
    to_string projId = Some rendered ->
    outcome_of t m (HttpDone rid (HttpOk data))
      (build m t
         (fun a => add_logs [u "Video uploaded successfully!"; u "Starting AI analysis..."]
                     (with_projectId projId a))
         [HttpPost (process_url rendered) None]
         (<[rid := None]> (pending m) ++ [Some (PProcess projId)])
         (intervals m))
| O_uploaded_thrown (rid : nat) (data projId : jsval) :
    pending m !! rid = Some (Some PUpload) ->
    get_prop data (u "project_id") = Some projId ->
    to_string projId = None ->
    outcome_of t m (HttpDone rid (HttpOk data))
      (build m t
         (fun a => add_logs [u "Video uploaded successfully!"; u "Starting AI analysis...";
                             u "Error: " ++ message cannot_convert]
                     (with_projectId projId a))
         [ConsoleError (u "Error:") cannot_convert; Alert processing_failed]
         (<[rid := None]> (pending m)) (intervals m))
| O_upload_caught (rid : nat) (res : http_result) (err : Error) :
    pending m !! rid = Some (Some PUpload) ->
    request_error res "project_id" = Some err ->
    outcome_of t m (HttpDone rid res)
      (build m t (add_logs [u "Error: " ++ message err])
         [ConsoleError (u "Error:") err; Alert processing_failed]
         (<[rid := None]> (pending m)) (intervals m))
| O_started (rid : nat) (projId data : jsval) :
    pending m !! rid = Some (Some (PProcess projId)) ->
    outcome_of t m (HttpDone rid (HttpOk data))
      (build m t
         (fun a => add_logs [u "AI Brain analyzing emotions and planning edits..."]
                     (with_status (JStr (u "processing")) a))
         [SetInterval (length (intervals m)) 2000]
         (<[rid := None]> (pending m))
         (intervals m ++ [{| iv_proj := projId; iv_period := 2000;
                             iv_next := t + 2000; iv_active := true |}]))
| O_start_caught (rid : nat) (projId : jsval) (err : Error) :
    pending m !! rid = Some (Some (PProcess projId)) ->
    outcome_of t m (HttpDone rid (HttpFail err))
      (build m t (add_logs [u "Error: " ++ message err])
         [ConsoleError (u "Error:") err; Alert processing_failed]
         (<[rid := None]> (pending m)) (intervals m))
| O_polled (rid h : nat) (data st : jsval) :
    pending m !! rid = Some (Some (PStatus h)) ->
    get_prop data (u "status") = Some st ->
    summary_renders data = true ->
    outcome_of t m (HttpDone rid (HttpOk data))
      (build m t (polled data) (poll_effects h (field data "status"))
         (<[rid := None]> (pending m))
         (polled_timers h (field data "status") (intervals m)))
| O_poll_thrown (rid h : nat) (data st : jsval) :
    pending m !! rid = Some (Some (PStatus h)) ->
    get_prop data (u "status") = Some st ->
    summary_renders data = false ->
    outcome_of t m (HttpDone rid (HttpOk data))
      (build m t (poll_aborted data)
         [ConsoleError (u "Status poll error:") cannot_convert]
         (<[rid := None]> (pending m)) (intervals m))
| O_poll_caught (rid h : nat) (res : http_result) (err : Error) :
    pending m !! rid = Some (Some (PStatus h)) ->
    request_error res "status" = Some err ->
    outcome_of t m (HttpDone rid res)
      (build m t (fun a => a) [ConsoleError (u "Status poll error:") err]
         (<[rid := None]> (pending m)) (intervals m)).

(** The file held after a run of events: the last one chosen. *)
Definition chosen_file (start : option File) (evs : list (Z * event)) : option File :=
  foldl (fun acc te => match snd te with
                       | ChooseFile (Some f) _ => Some f
                       | _ => acc
                       end) start evs.

(** The prompt held after a run of events: the last one typed. *)
Definition typed_prompt (start : jstring) (evs : list (Z * event)) : jstring :=
  foldl (fun acc te => match snd te with
                       | TypePrompt value => value
                       | _ => acc
                       end) start evs.

(** The machine after a sequence of status responses handled one after the
    other by the callback of timer [h]. *)
Definition handled (h : nat) (bodies : list jsval) (m : Machine) : Machine :=
  foldl (fun m data => exec (poll_response h (HttpOk data)) m) m bodies.

(** How many lines the status callback logs for a status. *)
Definition lines_logged (st : jsval) : nat :=
  ((if is_str st (u "analyzing") then 1
    else if is_str st (u "processing") then 10 else 0)
   + (if is_str st (u "completed") then 2 else 0)
   + (if is_str st (u "failed") then 1 else 0))%nat.

(** The effect [e] is in the trace of [m] at a position before [i]. *)
Definition issued_before (m : Machine) (i : nat) (e : effect) : Prop :=
  exists j t, (j < i)%nat /\ trace m !! j = Some (t, e).

(** Every timer and every parked continuation of [m] goes back to a request
    in the trace (so that the project identifier of a timer has a string
    form: the start-processing URL was made from it), and every request in
    the trace comes after the request it depends on. *)
Definition requests_ordered (m : Machine) : Prop :=
  (forall h iv, intervals m !! h = Some iv ->
     exists rendered,
       to_string (iv_proj iv) = Some rendered
       /\ issued_before m (length (trace m)) (HttpPost (process_url rendered) None))
  /\ (forall rid projId, pending m !! rid = Some (Some (PProcess projId)) ->
        exists rendered,
          to_string projId = Some rendered
          /\ issued_before m (length (trace m)) (HttpPost (process_url rendered) None))
  /\ (forall rid, pending m !! rid = Some (Some PUpload) ->
        exists form, issued_before m (length (trace m)) (HttpPost upload_url (Some form)))
  /\ (forall i t url, trace m !! i = Some (t, HttpGet url) ->
        exists projId,
          url = status_url projId
          /\ issued_before m i (HttpPost (process_url projId) None))
  /\ (forall i t url, trace m !! i = Some (t, HttpPost url None) ->
        exists projId form,
          url = process_url projId
          /\ issued_before m i (HttpPost upload_url (Some form))).

(** ** The Job Orchestrator *)

(** Modelled from the spec: the backend behind [API_BASE] is not among the
    sources.  This module is the Job Orchestrator of spec sections 3, 4.5
    and 5 as far as start-processing goes: one Job per Project, created when
    processing starts, and a second Job refused while one is non-terminal
    for the same Project. *)
Module Orchestrator.

(** Modelled from the spec: the Status of a Job (section 4.5). *)
Inductive Status : Type := queued | analyzing | processing | completed | failed.

(** Modelled from the spec: [completed] and [failed] are terminal. *)
Definition terminal (s : Status) : bool :=
  match s with
  | completed | failed => true
  | _ => false
  end.

(** Modelled from the spec: the execution record of a Project (section 3):
    status, progress percentage, and the artifact of each platform. *)
Record Job : Type := {
  job_status : Status;
  job_progress : Z;
  job_artifacts : list (string * string)
}.

(** Modelled from the spec: the Projects with their requested platforms,
    the Job of each Project, and one entry of [executions] for every Job
    execution started. *)
Record State : Type := {
  projects : gmap nat (list string);
  jobs : gmap nat Job;
  executions : list nat
}.

(** Modelled from the spec: a Job as it is created when processing starts. *)
Definition new_job : Job :=
  {| job_status := queued; job_progress := 0; job_artifacts := [] |}.

(** Modelled from the spec: the Project has a Job that is not terminal. *)
Definition running (p : nat) (o : State) : bool :=
  match jobs o !! p with
  | Some j => negb (terminal (job_status j))
  | None => false
  end.

(** Modelled from the spec: start-processing.  It creates the Job of the
    Project and starts its execution, unless a Job of the Project is
    running, in which case it does nothing; an unknown Project has nothing
    to start. *)
Definition start_processing (p : nat) (o : State) : State :=
  match projects o !! p with
  | None => o
  | Some _ =>
      if running p o then o
      else {| projects := projects o;
              jobs := <[p := new_job]> (jobs o);
              executions := executions o ++ [p] |}
  end.

(** Modelled from the spec: how many Job executions a Project has had. *)
Definition executions_of (p : nat) (o : State) : nat :=
  length (filter (fun q => q = p) (executions o)).

End Orchestrator.

(** * Properties *)

(** ** Strings and values *)

Lemma jstr_eqb_eq (a b : jstring) : jstr_eqb a b = true <-> a = b.
Proof.
  revert b.
  induction a as [|x a IH]; intros [|y b]; simpl; try (split; congruence).
  rewrite andb_true_iff, N.eqb_eq, IH.
  split; [intros [-> ->]; reflexivity | intros [= -> ->]; auto].
Qed.

Lemma is_str_eq (v : jsval) (lit : jstring) : is_str v lit = true <-> v = JStr lit.
Proof.
  destruct v; simpl; try (split; congruence).
  rewrite jstr_eqb_eq. split; congruence.
Qed.

Lemma is_str_functional (v : jsval) (a b : jstring) :
  is_str v a = true -> is_str v b = true -> a = b.
Proof. rewrite !is_str_eq. congruence. Qed.

(** Number::toString on some integers: below and beyond 2^53, and at the
    change to the exponent form at 10^21. *)
Lemma number_to_string_samples :
  number_to_string 0 = u "0"
  /\ number_to_string (-7) = u "-7"
  /\ number_to_string (2 ^ 53 + 1) = u "9007199254740992"
  /\ number_to_string (2 ^ 64) = u "18446744073709552000"
  /\ number_to_string (10 ^ 21 - 1) = u "1e+21"
  /\ number_to_string (2 ^ 70) = u "1.1805916207174113e+21"
  /\ number_to_string (- 10 ^ 400) = u "-Infinity".
Proof. repeat split; vm_compute; reflexivity. Qed.

(** Only an object or an array can be without a string form. *)
Lemma to_string_primitive (v : jsval) :
  match v with JArr _ | JObj _ => True | _ => is_Some (to_string v) end.
Proof. destruct v as [| |[|]| | | | |]; cbn; eauto. Qed.

(** A truthy value has properties: reading one does not raise. *)
Lemma get_prop_truthy (v : jsval) (k : string) :
  truthy v = true -> get_prop v (u k) = Some (field v k).
Proof. unfold field. by destruct v. Qed.

Lemma field_status_readable (data : jsval) (lit : jstring) :
  is_str (field data "status") lit = true ->
  get_prop data (u "status") = Some (field data "status").
Proof. unfold field. destruct data; cbn; congruence. Qed.

Lemma get_prop_field (v x : jsval) (k : string) :
  get_prop v (u k) = Some x -> field v k = x.
Proof. unfold field. by intros ->. Qed.

(** The URLs, written out. *)
Lemma process_url_spelled (projId : jstring) :
  process_url projId = u "http://localhost:8000/api/process/complete/" ++ projId.
Proof. reflexivity. Qed.

Lemma status_url_spelled (projId : jstring) :
  status_url projId = u "http://localhost:8000/api/status/" ++ projId ++ u "/detailed".
Proof. reflexivity. Qed.

Lemma download_url_spelled (projId platform : jstring) :
  download_url projId platform
  = u "http://localhost:8000/api/download/" ++ projId ++ u "/" ++ platform.
Proof. reflexivity. Qed.

(** ** The handlers, segment by segment *)

Ltac act_unfold :=
  unfold exec, try_catch, when, await, prop, interpolate, pollStatus, setInterval,
    clearInterval, axios_post, axios_get, park, alert, emit, addLog, read, update,
    setVideoFile, setVideoPreview, setPrompt, setProjectId, setStatus, setProgress,
    setAiUnderstanding, setOutputs, throw,
    mbind, mret, act_bind, act_ret, bind, ret in *.

Lemma poll_response_handled (h : nat) (data st : jsval) (m : Machine) :
  get_prop data (u "status") = Some st ->
  poll_response h (HttpOk data) m = (Ret tt, after_poll h data m).
Proof.
  intros H.
  assert (Hf : forall k, get_prop data (u k) = Some (field data k)).
  { intros k. unfold field. destruct data; try discriminate; reflexivity. }
  unfold poll_response, after_poll, summary_renders, polled, poll_aborted, summary,
    analysis_lines, shown, polled_timers, status_logs, poll_effects, reported, logged, traced.
  act_unfold. rewrite !Hf. clear H Hf.
  generalize (field data "status") (field data "output_video")
    (field data "progress_percentage") (field data "ai_analysis").
  intros st' ov pp analysis.
  destruct (truthy analysis) eqn:Ha.
  - rewrite !(get_prop_truthy analysis _ Ha).
    destruct (to_string (js_or (field analysis "mode") (JStr (u "custom")))) as [mode|];
      [|reflexivity].
    destruct (to_string (js_or (field analysis "detected_emotion") (JStr (u "balanced"))))
      as [emotion|]; [|reflexivity].
    destruct (to_string (js_or (field analysis "operations_count") (JNum 0)))
      as [count|]; [|reflexivity].
    destruct (is_str st' (u "analyzing")), (is_str st' (u "processing")),
      (is_str st' (u "completed")), (is_str st' (u "failed")); reflexivity.
  - destruct (is_str st' (u "analyzing")), (is_str st' (u "processing")),
      (is_str st' (u "completed")), (is_str st' (u "failed")); reflexivity.
Qed.

Lemma poll_response_unreadable (h : nat) (data : jsval) (m : Machine) :
  get_prop data (u "status") = None ->
  exec (poll_response h (HttpOk data)) m
  = with_trace (trace m ++ [(now m, ConsoleError (u "Status poll error:")
                                      (type_error data (u "status")))]) m.
Proof.
  intros H. unfold poll_response, poll_catch. act_unfold. rewrite H. reflexivity.
Qed.

Lemma poll_response_rejected (h : nat) (err : Error) (m : Machine) :
  exec (poll_response h (HttpFail err)) m
  = with_trace (trace m ++ [(now m, ConsoleError (u "Status poll error:") err)]) m.
Proof. reflexivity. Qed.

Lemma exec_poll_response (h : nat) (data : jsval) (m : Machine) :
  exec (poll_response h (HttpOk data)) m
  = match get_prop data (u "status") with
    | Some _ => after_poll h data m
    | None => with_trace (trace m ++ [(now m, ConsoleError (u "Status poll error:")
                                                (type_error data (u "status")))]) m
    end.
Proof.
  destruct (get_prop data (u "status")) eqn:H.
  - unfold exec. erewrite poll_response_handled; eauto.
  - apply poll_response_unreadable, H.
Qed.

Lemma startEditing_no_file (m : Machine) :
  videoFile (app m) = None ->
  exec startEditing m
  = with_trace (trace m ++ [(now m, Alert (u "Please upload a video first"))]) m.
Proof. intros H. unfold startEditing. act_unfold. rewrite H. reflexivity. Qed.

Lemma startEditing_blank_prompt (m : Machine) (file : File) :
  videoFile (app m) = Some file ->
  trim (prompt (app m)) = [] ->
  exec startEditing m
  = with_trace (trace m ++ [(now m, Alert (u "Please enter a prompt describing what you want"))]) m.
Proof. intros H1 H2. unfold startEditing. act_unfold. rewrite H1, H2. reflexivity. Qed.

Lemma startEditing_valid (m : Machine) (file : File) :
  videoFile (app m) = Some file ->
  trim (prompt (app m)) <> [] ->
  exec startEditing m
  = build m (now m)
      (fun a => add_logs [u "Uploading video..."] (with_aiUnderstanding planning_lines a))
      [HttpPost upload_url (Some (upload_form file (prompt (app m))))]
      (pending m ++ [Some PUpload]) (intervals m).
Proof.
  intros H1 H2. unfold startEditing. act_unfold. rewrite H1.
  destruct (trim (prompt (app m))); [congruence|]. reflexivity.
Qed.

Lemma startEditing_uploads (m : Machine) (file : File) :
  videoFile (app m) = Some file ->
  trim (prompt (app m)) <> [] ->
  trace (exec startEditing m)
    = trace m ++ [(now m, HttpPost upload_url (Some (upload_form file (prompt (app m)))))]
  /\ pending (exec startEditing m) = pending m ++ [Some PUpload].
Proof. intros H1 H2. by rewrite (startEditing_valid m file H1 H2). Qed.

(** [downloadVideo], case by case. *)
Lemma exec_downloadVideo (platform : jstring) (m : Machine) :
  exec (downloadVideo platform) m
  = if truthy (projectId (app m)) then
      match to_string (projectId (app m)) with
      | Some rendered =>
          build m (now m) (add_logs [u "Downloading " ++ platform ++ u " version..."])
            [WindowOpen (download_url rendered platform) (u "_blank")]
            (pending m) (intervals m)
      | None => m
      end
    else m.
Proof.
  unfold downloadVideo. act_unfold.
  destruct (truthy (projectId (app m))); [|reflexivity]. cbn.
  destruct (to_string (projectId (app m))); reflexivity.
Qed.

Lemma emitted_app (m m' : Machine) (es : list (Z * effect)) :
  trace m' = trace m ++ es -> emitted m m' = map snd es.
Proof. intros H. unfold emitted. by rewrite H, drop_app_length. Qed.

Lemma traced_app (t : Z) (tr : list (Z * effect)) (es : list effect) :
  traced t tr es = tr ++ map (pair t) es.
Proof.
  unfold traced. revert tr.
  induction es as [|e es IH]; intros tr; cbn; [by rewrite app_nil_r|].
  by rewrite IH, <- app_assoc.
Qed.

Lemma emitted_traced (t : Z) (m m' : Machine) (es : list effect) :
  trace m' = traced t (trace m) es -> emitted m m' = es.
Proof.
  intros H. unfold emitted. rewrite H, traced_app, drop_app_length, map_map.
  cbn. apply map_id.
Qed.

Lemma emitted_same (m m' : Machine) : trace m' = trace m -> emitted m m' = [].
Proof. intros H. unfold emitted. by rewrite H, drop_all. Qed.

Lemma emitted_build (m : Machine) (t : Z) (f : AppState -> AppState)
    (es : list effect) (p : list (option Pending)) (ivs : list Interval) :
  emitted m (build m t f es p ivs) = es.
Proof. by apply emitted_traced with (t := t). Qed.

Lemma logged_app (logs msgs : list jstring) :
  logged logs msgs = logs ++ map (fun msg => u "[AI] " ++ msg) msgs.
Proof.
  unfold logged. revert logs.
  induction msgs as [|msg msgs IH]; intros logs; cbn; [by rewrite app_nil_r|].
  by rewrite IH, <- app_assoc.
Qed.

(** ** Every step follows one of the rules *)

Lemma step_handle (t : Z) (ev : event) (m m' : Machine) :
  step (t, ev) m = Some m' ->
  on_time t m = true /\ handle ev (with_now t m) = Some m'.
Proof. unfold step. cbn [fst snd]. destruct (on_time t m); [auto|discriminate]. Qed.

Lemma step_outcome (t : Z) (ev : event) (m m' : Machine) :
  step (t, ev) m = Some m' -> outcome_of t m ev m'.
Proof.
  intros Hs. apply step_handle in Hs as [_ Hh].
  destruct ev as [file url|v| |platform|h|rid res]; cbn [handle] in Hh.
  - injection Hh as <-. destruct file as [f|].
    + exact (O_choose t m f url).
    + exact (O_choose_none t m url).
  - injection Hh as <-. exact (O_prompt t m v).
  - injection Hh as <-.
    destruct (videoFile (app m)) as [file|] eqn:Hfile;
      [destruct (trim (prompt (app m))) as [|c s] eqn:Hprompt|].
    + rewrite (startEditing_blank_prompt (with_now t m) file Hfile Hprompt).
      exact (O_start_blank t m file Hfile Hprompt).
    + assert (Hne : trim (prompt (app m)) <> []) by congruence.
      rewrite (startEditing_valid (with_now t m) file Hfile Hne).
      exact (O_start_upload t m file Hfile Hne).
    + rewrite (startEditing_no_file (with_now t m) Hfile).
      exact (O_start_no_file t m Hfile).
  - injection Hh as <-. rewrite exec_downloadVideo. cbn [app with_now].
    destruct (truthy (projectId (app m))) eqn:Hp;
      [destruct (to_string (projectId (app m))) as [rendered|] eqn:Hr|].
    + exact (O_download t m platform rendered Hp Hr).
    + exact (O_download_thrown t m platform Hp Hr).
    + exact (O_download_unset t m platform Hp).
  - cbn [intervals with_now now] in Hh.
    destruct (intervals m !! h) as [iv|] eqn:Hiv; [|discriminate].
    destruct (iv_active iv) eqn:Ha; [|discriminate].
    destruct (Z.eqb_spec (iv_next iv) t) as [Hn|]; [|discriminate].
    injection Hh as <-. unfold poll_request, poll_catch. act_unfold.
    destruct (to_string (iv_proj iv)) as [rendered|] eqn:Hr.
    + exact (O_fire t m h iv rendered Hiv Ha Hn Hr).
    + exact (O_fire_thrown t m h iv Hiv Ha Hn Hr).
  - cbn [pending with_now] in Hh.
    destruct (pending m !! rid) as [[k|]|] eqn:Hk; try discriminate.
    injection Hh as <-. destruct k as [|projId|h]; cbn [resume].
    + destruct (request_error res "project_id") as [err|] eqn:He.
      * replace (exec (startEditing_uploaded res) _)
          with (build m t (add_logs [u "Error: " ++ message err])
                  [ConsoleError (u "Error:") err; Alert processing_failed]
                  (<[rid := None]> (pending m)) (intervals m)).
        { exact (O_upload_caught t m rid res err Hk He). }
        unfold startEditing_uploaded, startEditing_catch. act_unfold.
        destruct res as [data|e]; cbn [request_error] in He.
        -- destruct (get_prop data (u "project_id")); [discriminate|].
           by injection He as <-.
        -- by injection He as <-.
      * destruct res as [data|e]; [|discriminate]. cbn [request_error] in He.
        destruct (get_prop data (u "project_id")) as [projId|] eqn:Hp; [|discriminate].
        unfold startEditing_uploaded, startEditing_catch. act_unfold. rewrite Hp. cbn.
        destruct (to_string projId) as [rendered|] eqn:Hr.
        -- exact (O_uploaded t m rid data projId rendered Hk Hp Hr).
        -- exact (O_uploaded_thrown t m rid data projId Hk Hp Hr).
    + destruct res as [data|err].
      * exact (O_started t m rid projId data Hk).
      * exact (O_start_caught t m rid projId err Hk).
    + destruct (request_error res "status") as [err|] eqn:He.
      * replace (exec (poll_response h res) _)
          with (build m t (fun a => a) [ConsoleError (u "Status poll error:") err]
                  (<[rid := None]> (pending m)) (intervals m)).
        { exact (O_poll_caught t m rid h res err Hk He). }
        destruct res as [data|e]; cbn [request_error] in He.
        -- destruct (get_prop data (u "status")) eqn:Hst; [discriminate|].
           injection He as <-. by rewrite poll_response_unreadable.
        -- by injection He as <-.
      * destruct res as [data|e]; [|discriminate]. cbn [request_error] in He.
        destruct (get_prop data (u "status")) as [st|] eqn:Hst; [|discriminate].
        rewrite exec_poll_response, Hst. unfold after_poll.
        destruct (summary_renders data) eqn:Hr.
        -- exact (O_polled t m rid h data st Hk Hst Hr).
        -- exact (O_poll_thrown t m rid h data st Hk Hst Hr).
Qed.

(** ** What a step does to the timers and to the pending requests *)

Lemma completed_not_failed (st : jsval) :
  is_str st (u "completed") = true -> is_str st (u "failed") = true -> False.
Proof.
  intros H1 H2. pose proof (is_str_functional _ _ _ H1 H2) as E.
  vm_compute in E. discriminate.
Qed.

(** The timers after the status callback: stopped for a terminal status,
    untouched otherwise. *)
Lemma polled_timers_cases (h : nat) (st : jsval) (ivs : list Interval) :
  (polled_timers h st ivs = ivs
   /\ is_str st (u "completed") = false /\ is_str st (u "failed") = false)
  \/ (polled_timers h st ivs = alter stopped h ivs
      /\ exists lit, st = JStr lit /\ (lit = u "completed" \/ lit = u "failed")).
Proof.
  unfold polled_timers.
  destruct (is_str st (u "completed")) eqn:Hc, (is_str st (u "failed")) eqn:Hf; cbn [id].
  - destruct (completed_not_failed _ Hc Hf).
  - right. split; [reflexivity|]. exists (u "completed"). apply is_str_eq in Hc. auto.
  - right. split; [reflexivity|]. exists (u "failed"). apply is_str_eq in Hf. auto.
  - by left.
Qed.

(** The timers after a step: as before, or one re-armed by its firing, or
    one registered by a start-processing response, or one stopped by its
    own status response. *)
Lemma outcome_intervals (t : Z) (ev : event) (m m' : Machine) :
  outcome_of t m ev m' ->
  intervals m' = intervals m
  \/ (exists h iv,
         ev = TimerFire h /\ intervals m !! h = Some iv /\ iv_active iv = true
         /\ iv_next iv = t /\ intervals m' = <[h := rearmed iv]> (intervals m))
  \/ (exists rid projId data,
         ev = HttpDone rid (HttpOk data)
         /\ pending m !! rid = Some (Some (PProcess projId))
         /\ intervals m'
            = intervals m ++ [{| iv_proj := projId; iv_period := 2000;
                                 iv_next := t + 2000; iv_active := true |}])
  \/ (exists rid h data lit,
         ev = HttpDone rid (HttpOk data)
         /\ pending m !! rid = Some (Some (PStatus h))
         /\ field data "status" = JStr lit
         /\ (lit = u "completed" \/ lit = u "failed")
         /\ summary_renders data = true
         /\ intervals m' = alter stopped h (intervals m)).
Proof.
  intros Ho. destruct Ho; cbn [build intervals]; auto.
  - right; left. by exists h, iv.
  - right; left. by exists h, iv.
  - right; right; left. by exists rid, projId, data.
  - destruct (polled_timers_cases h (field data "status") (intervals m))
      as [(-> & _)|(-> & lit & Hl & Hlit)]; [by left|].
    right; right; right. by exists rid, h, data, lit.
Qed.

(** The pending requests after a step: as before; or with the request of
    an upload or of a status poll parked at the end; or, for a response,
    with its request settled, and for an upload response that goes on, the
    start-processing request parked at the end. *)
Lemma outcome_pending (t : Z) (ev : event) (m m' : Machine) :
  outcome_of t m ev m' ->
  pending m' = pending m
  \/ (ev = ClickStart /\ pending m' = pending m ++ [Some PUpload])
  \/ (exists h, ev = TimerFire h /\ pending m' = pending m ++ [Some (PStatus h)])
  \/ (exists rid res,
         ev = HttpDone rid res
         /\ (pending m' = <[rid := None]> (pending m)
             \/ exists projId rendered,
                  pending m !! rid = Some (Some PUpload)
                  /\ to_string projId = Some rendered
                  /\ pending m' = <[rid := None]> (pending m) ++ [Some (PProcess projId)])).
Proof.
  intros Ho. destruct Ho; cbn [build pending]; auto.
  - right; right; left. by exists h.
  - right; right; right. exists rid, (HttpOk data). split; [reflexivity|]. right.
    by exists projId, rendered.
  - right; right; right. exists rid, (HttpOk data). auto.
  - right; right; right. exists rid, res. auto.
  - right; right; right. exists rid, (HttpOk data). auto.
  - right; right; right. exists rid, (HttpFail err). auto.
  - right; right; right. exists rid, (HttpOk data). auto.
  - right; right; right. exists rid, (HttpOk data). auto.
  - right; right; right. exists rid, res. auto.
Qed.

Lemma outcome_now (t : Z) (ev : event) (m m' : Machine) :
  outcome_of t m ev m' -> now m' = t.
Proof. intros Ho. by destruct Ho. Qed.

Lemma step_now (t : Z) (ev : event) (m m' : Machine) :
  step (t, ev) m = Some m' -> now m' = t.
Proof. intros Hs. eapply outcome_now, step_outcome, Hs. Qed.

(** A timer keeps its project and its period; it is re-armed only by its
    own firing, which happens at its due time; once stopped it stays so. *)
Ltac same_timer iv :=
  exists iv; cbn; repeat split; auto;
  try discriminate;
  try (right; split; [first [discriminate | congruence] | reflexivity]).

Lemma step_timer (t : Z) (ev : event) (m m' : Machine) (h : nat) (iv : Interval) :
  step (t, ev) m = Some m' ->
  intervals m !! h = Some iv ->
  exists iv',
    intervals m' !! h = Some iv'
    /\ iv_proj iv' = iv_proj iv /\ iv_period iv' = iv_period iv
    /\ (iv_active iv' = true -> iv_active iv = true)
    /\ ((ev = TimerFire h /\ iv_active iv = true /\ iv_next iv = t
         /\ iv_next iv' = t + iv_period iv)
        \/ (ev <> TimerFire h /\ iv_next iv' = iv_next iv)).
Proof.
  intros Hs Hiv. apply step_outcome in Hs.
  assert (Hlt : (h < length (intervals m))%nat) by (eapply lookup_lt_Some; eauto).
  assert (Fire : forall h' iv0,
             intervals m !! h' = Some iv0 -> iv_active iv0 = true -> iv_next iv0 = t ->
             exists iv',
               <[h' := rearmed iv0]> (intervals m) !! h = Some iv'
               /\ iv_proj iv' = iv_proj iv /\ iv_period iv' = iv_period iv
               /\ (iv_active iv' = true -> iv_active iv = true)
               /\ ((TimerFire h' = TimerFire h /\ iv_active iv = true /\ iv_next iv = t
                    /\ iv_next iv' = t + iv_period iv)
                   \/ (TimerFire h' <> TimerFire h /\ iv_next iv' = iv_next iv))).
  { intros h' iv0 H0 Ha Hn. destruct (decide (h' = h)) as [->|Hne].
    - rewrite list_lookup_insert_eq by done.
      assert (iv0 = iv) as -> by congruence.
      exists (rearmed iv). cbn. repeat split; auto. left. repeat split; auto; lia.
    - rewrite list_lookup_insert_ne by done. same_timer iv. }
  destruct Hs; cbn [build intervals]; eauto; try (same_timer iv; fail).
  - rewrite lookup_app_l by done. same_timer iv.
  - destruct (polled_timers_cases h0 (field data "status") (intervals m))
      as [(-> & _)|(-> & _)]; [same_timer iv|].
    destruct (decide (h0 = h)) as [->|Hne].
    + rewrite list_lookup_alter_eq, Hiv. cbn [fmap option_fmap option_map].
      same_timer (stopped iv).
    + rewrite list_lookup_alter_ne by done. same_timer iv.
Qed.

Lemma lookup_settle_Some (l : list (option Pending)) (r rid : nat) (k : Pending) :
  <[r := None]> l !! rid = Some (Some k) -> l !! rid = Some (Some k).
Proof.
  intros H. destruct (decide (r = rid)) as [->|Hne].
  - destruct (decide (rid < length l)%nat).
    + rewrite list_lookup_insert_eq in H by done. discriminate.
    + rewrite list_insert_ge in H by lia. exact H.
  - by rewrite list_lookup_insert_ne in H.
Qed.

(** A parked status continuation of timer [h] is either already parked or
    comes from a firing of [h]. *)
Lemma step_pending_status (t : Z) (ev : event) (m m' : Machine) (rid h : nat) :
  step (t, ev) m = Some m' ->
  pending m' !! rid = Some (Some (PStatus h)) ->
  pending m !! rid = Some (Some (PStatus h)) \/ ev = TimerFire h.
Proof.
  intros Hs Hp.
  assert (Happ : forall (l : list (option Pending)) k,
             (l ++ [Some k]) !! rid = Some (Some (PStatus h)) ->
             l !! rid = Some (Some (PStatus h)) \/ k = PStatus h).
  { intros l k H. apply lookup_snoc_Some in H as [[_ H]|[_ H]]; [by left|right; congruence]. }
  destruct (outcome_pending _ _ _ _ (step_outcome _ _ _ _ Hs))
    as [Hq|[[_ Hq]|[(h' & -> & Hq)|(r & res & -> & [Hq|(p & s & _ & _ & Hq)])]]];
    rewrite Hq in Hp.
  - by left.
  - apply Happ in Hp as [Hp|Hp]; [by left|discriminate].
  - apply Happ in Hp as [Hp|Hp]; [by left|right; congruence].
  - left. eapply lookup_settle_Some, Hp.
  - apply Happ in Hp as [Hp|Hp]; [left; eapply lookup_settle_Some, Hp|discriminate].
Qed.

Lemma on_time_due (t : Z) (m : Machine) (h : nat) (iv : Interval) :
  on_time t m = true ->
  intervals m !! h = Some iv -> iv_active iv = true ->
  now m <= t <= iv_next iv.
Proof.
  unfold on_time. rewrite andb_true_iff, forallb_forall, Z.leb_le.
  intros [Hn Hall] Hiv Ha.
  specialize (Hall iv). rewrite <- list_elem_of_In in Hall.
  specialize (Hall (list_elem_of_lookup_2 _ _ _ Hiv)).
  rewrite Ha in Hall. cbn in Hall. apply Z.leb_le in Hall. lia.
Qed.

(** A timer of the machine after a step was there before, or has just been
    registered, with a period of 2000 ms and its first firing 2000 ms
    ahead, for the project of the start-processing request that returned. *)
Lemma step_timer_origin (t : Z) (ev : event) (m m' : Machine) (h : nat) (iv' : Interval) :
  step (t, ev) m = Some m' ->
  intervals m' !! h = Some iv' ->
  is_Some (intervals m !! h)
  \/ (exists rid projId,
         pending m !! rid = Some (Some (PProcess projId))
         /\ iv' = {| iv_proj := projId; iv_period := 2000; iv_next := t + 2000;
                     iv_active := true |}).
Proof.
  intros Hs Hiv.
  assert (Hlen : forall l : list Interval,
             length l = length (intervals m) -> l !! h = Some iv' ->
             is_Some (intervals m !! h)).
  { intros l Hl Hx. apply lookup_lt_is_Some. rewrite <- Hl. eapply lookup_lt_Some, Hx. }
  destruct (outcome_intervals _ _ _ _ (step_outcome _ _ _ _ Hs))
    as [Hi|[(h' & iv0 & _ & _ & _ & _ & Hi)
           |[(rid & p & data & _ & Hp & Hi)|(rid & h' & data & lit & _ & _ & _ & _ & _ & Hi)]]];
    rewrite Hi in Hiv.
  - left. by eexists.
  - left. eapply Hlen; [|exact Hiv]. apply length_insert.
  - apply lookup_snoc_Some in Hiv as [[Hlt Hiv]|[_ <-]].
    + left. by eexists.
    + right. by exists rid, p.
  - left. eapply Hlen; [|exact Hiv]. apply length_alter.
Qed.

(** ** Machines that can be reached *)

Lemma run_app (evs1 evs2 : list (Z * event)) (m : Machine) :
  run (evs1 ++ evs2) m
  = match run evs1 m with Some m1 => run evs2 m1 | None => None end.
Proof.
  revert m. induction evs1 as [|te evs1 IH]; intros m; [reflexivity|].
  simpl. destruct (step te m); [apply IH|reflexivity].
Qed.

Lemma reachable_run (evs : list (Z * event)) (m m' : Machine) :
  reachable m -> run evs m = Some m' -> reachable m'.
Proof.
  intros [evs0 H0] H. exists (evs0 ++ evs). by rewrite run_app, H0.
Qed.

Lemma reachable_step (te : Z * event) (m m' : Machine) :
  reachable m -> step te m = Some m' -> reachable m'.
Proof.
  intros Hr Hs. apply (reachable_run [te] m m' Hr). cbn [run]. by rewrite Hs.
Qed.

(** What holds of the initial machine and is kept by every step holds of
    every reachable machine. *)
Lemma reachable_ind (P : Machine -> Prop) :
  P initial_machine ->
  (forall t ev m m', P m -> step (t, ev) m = Some m' -> P m') ->
  forall m, reachable m -> P m.
Proof.
  intros Hinit Hstep m [evs H]. revert H.
  generalize initial_machine, Hinit. clear Hinit.
  induction evs as [|[t ev] evs IH]; intros m0 H0 H; cbn [run] in H.
  - by injection H as <-.
  - destruct (step (t, ev) m0) as [m1|] eqn:Hs; [|discriminate].
    eapply IH; [|exact H]. eapply Hstep; eauto.
Qed.

(** In a reachable machine a parked status continuation belongs to a timer
    that exists, every timer has the period 2000 ms, and no live timer is
    overdue. *)
Lemma reachable_invariant (m : Machine) :
  reachable m ->
  (forall rid h, pending m !! rid = Some (Some (PStatus h)) -> is_Some (intervals m !! h))
  /\ (forall h iv, intervals m !! h = Some iv ->
        iv_period iv = 2000 /\ (iv_active iv = true -> now m <= iv_next iv)).
Proof.
  revert m. apply reachable_ind; [split; intros; discriminate|].
  intros t ev m0 m1 [Ip It] Hs. split.
  - intros rid h Hp.
    assert (is_Some (intervals m0 !! h)) as [iv Hiv].
    { destruct (step_pending_status _ _ _ _ _ _ Hs Hp) as [Hp0| ->]; [eauto|].
      apply step_outcome in Hs. inversion Hs; subst; eauto. }
    destruct (step_timer _ _ _ _ _ _ Hs Hiv) as (iv' & Hiv' & _). by exists iv'.
  - intros h iv' Hiv'. rewrite (step_now _ _ _ _ Hs).
    destruct (step_timer_origin _ _ _ _ _ _ Hs Hiv') as [[iv Hiv]|(rid & p & _ & ->)];
      [|cbn; split; [reflexivity|lia]].
    destruct (step_timer _ _ _ _ _ _ Hs Hiv) as (iv2 & Hiv2 & _ & Hper & Hact & Hnext).
    assert (iv2 = iv') as -> by congruence.
    destruct (It h iv Hiv) as [Hp Hdue]. split; [congruence|].
    intros Ha. specialize (Hact Ha).
    pose proof (proj1 (step_handle _ _ _ _ Hs)) as Hon.
    pose proof (on_time_due _ _ _ _ Hon Hiv Hact).
    destruct Hnext as [(_ & _ & _ & ->)|(_ & ->)]; lia.
Qed.

Lemma fire_times_fire (h : nat) (t : Z) (evs : list (Z * event)) :
  fire_times h ((t, TimerFire h) :: evs) = t :: fire_times h evs.
Proof. unfold fire_times. cbn. by rewrite Nat.eqb_refl. Qed.

Lemma fire_times_other (h : nat) (t : Z) (ev : event) (evs : list (Z * event)) :
  ev <> TimerFire h -> fire_times h ((t, ev) :: evs) = fire_times h evs.
Proof.
  intros Hne. unfold fire_times. cbn.
  destruct ev as [| | | |h'|]; try reflexivity.
  destruct (Nat.eqb_spec h' h) as [->|]; [done|reflexivity].
Qed.

(** A stopped timer cannot fire. *)
Lemma stopped_timer_silent (t : Z) (m : Machine) (h : nat) (iv : Interval) :
  intervals m !! h = Some iv -> iv_active iv = false ->
  step (t, TimerFire h) m = None.
Proof.
  intros Hiv Ha. destruct (step (t, TimerFire h) m) as [m2|] eqn:Hs; [|reflexivity].
  destruct (step_timer _ _ _ _ _ _ Hs Hiv) as (_ & _ & _ & _ & _ & [(_ & Hb & _)|[Hne _]]);
    congruence.
Qed.

(** A stopped timer stays stopped and never fires again; and when nothing
    of it is parked, nothing of it is ever parked again. *)
Lemma stopped_timer_run (evs : list (Z * event)) (m m' : Machine) (h : nat) (iv : Interval) :
  intervals m !! h = Some iv -> iv_active iv = false ->
  run evs m = Some m' ->
  (exists iv', intervals m' !! h = Some iv' /\ iv_active iv' = false)
  /\ fire_times h evs = []
  /\ ((forall r, pending m !! r <> Some (Some (PStatus h))) ->
      forall r, pending m' !! r <> Some (Some (PStatus h))).
Proof.
  revert m iv. induction evs as [|[t ev] evs IH]; intros m iv Hiv Ha H; cbn [run] in H.
  - injection H as <-. eauto.
  - destruct (step (t, ev) m) as [m1|] eqn:Hs; [|discriminate].
    destruct (step_timer _ _ _ _ _ _ Hs Hiv) as (iv1 & Hiv1 & _ & _ & Hact & Hnext).
    assert (Hne : ev <> TimerFire h).
    { destruct Hnext as [(_ & Hb & _)|[Hne _]]; [congruence|exact Hne]. }
    assert (Ha1 : iv_active iv1 = false).
    { destruct (iv_active iv1); [|reflexivity]. rewrite Hact in Ha; done. }
    destruct (IH m1 iv1 Hiv1 Ha1 H) as (Hstop & Hfire & Hpend).
    split; [exact Hstop|]. split.
    + by rewrite fire_times_other.
    + intros Hnone. apply Hpend. intros r Hr.
      destruct (step_pending_status _ _ _ _ _ _ Hs Hr) as [Hr0|Hev];
        [by apply (Hnone r)|done].
Qed.

(** Only the response to a status poll changes the stored progress. *)
Lemma step_progress (t : Z) (ev : event) (m m' : Machine) :
  step (t, ev) m = Some m' ->
  progress (app m') <> progress (app m) ->
  exists rid res h, ev = HttpDone rid res /\ pending m !! rid = Some (Some (PStatus h)).
Proof.
  intros Hs Hne. apply step_outcome in Hs.
  destruct Hs; cbn [build app progress add_logs with_terminalLogs
    with_videoPreview with_videoFile with_prompt with_aiUnderstanding
    with_projectId with_status] in Hne; try congruence; eauto.
Qed.

(** A parked continuation stays parked until its own response arrives. *)
Lemma step_pending_kept (t : Z) (ev : event) (m m' : Machine) (rid : nat) (k : Pending) :
  pending m !! rid = Some (Some k) ->
  step (t, ev) m = Some m' ->
  (forall res, ev <> HttpDone rid res) ->
  pending m' !! rid = Some (Some k).
Proof.
  intros Hk Hs Hne.
  assert (Hlt : (rid < length (pending m))%nat) by (eapply lookup_lt_Some; eauto).
  destruct (outcome_pending _ _ _ _ (step_outcome _ _ _ _ Hs))
    as [Hq|[[_ Hq]|[(h' & _ & Hq)|(r & res & -> & [Hq|(p & s & _ & _ & Hq)])]]];
    rewrite Hq; rewrite ?lookup_app_l by (by rewrite ?length_insert); auto.
  - rewrite list_lookup_insert_ne; [done|]. intros ->. by apply (Hne res).
  - rewrite list_lookup_insert_ne; [done|]. intros ->. by apply (Hne res).
Qed.

(** A timer fires at its due time and then one period later each time. *)
Lemma run_timer (evs : list (Z * event)) (m m' : Machine) (h : nat) (iv : Interval) :
  run evs m = Some m' ->
  intervals m !! h = Some iv ->
  (exists iv', intervals m' !! h = Some iv' /\ iv_proj iv' = iv_proj iv)
  /\ fire_times h evs
     = map (fun i => iv_next iv + iv_period iv * Z.of_nat i)
         (seq 0 (length (fire_times h evs))).
Proof.
  revert m iv. induction evs as [|[t ev] evs IH]; intros m iv H Hiv; cbn [run] in H.
  - injection H as <-. split; [by exists iv|reflexivity].
  - destruct (step (t, ev) m) as [m1|] eqn:Hs; [|discriminate].
    destruct (step_timer _ _ _ _ _ _ Hs Hiv) as (iv1 & Hiv1 & Hproj & Hper & _ & Hnext).
    destruct (IH m1 iv1 H Hiv1) as ((iv' & Hiv' & Hproj') & Hfire).
    split; [exists iv'; split; [exact Hiv'|congruence]|].
    destruct Hnext as [(-> & _ & Hdue & Hnext)|(Hne & Hnext)].
    + rewrite fire_times_fire. cbn [length seq map].
      rewrite Hfire at 1. rewrite <- seq_shift, map_map.
      f_equal; [lia|]. apply map_ext. intros i. rewrite Hnext, Hper. lia.
    + rewrite fire_times_other by exact Hne. rewrite Hfire at 1.
      apply map_ext. intros i. by rewrite Hnext, Hper.
Qed.

(** The start-processing response registers the polling timer. *)
Lemma process_response_registers_timer
    (m m1 : Machine) (t : Z) (rid : nat) (projId data : jsval) :
  pending m !! rid = Some (Some (PProcess projId)) ->
  step (t, HttpDone rid (HttpOk data)) m = Some m1 ->
  emitted m m1 = [SetInterval (length (intervals m)) 2000]
  /\ intervals m1 !! length (intervals m)
     = Some {| iv_proj := projId; iv_period := 2000; iv_next := t + 2000;
               iv_active := true |}
  /\ progress (app m1) = progress (app m).
Proof.
  intros Hk Hs. apply step_outcome in Hs.
  inversion Hs; subst; try congruence; cbn [request_error] in *; try congruence.
  - assert (projId0 = projId) as -> by congruence.
    rewrite emitted_build. cbn [build intervals app progress].
    split; [reflexivity|]. split; [|reflexivity].
    by rewrite lookup_app_r, Nat.sub_diag.
Qed.

(** The firing of a timer whose project has a string form issues one status
    request, for that project. *)
Lemma timer_fire_polls (t : Z) (h : nat) (m m' : Machine) (iv : Interval) (rendered : jstring) :
  intervals m !! h = Some iv ->
  to_string (iv_proj iv) = Some rendered ->
  step (t, TimerFire h) m = Some m' ->
  emitted m m' = [HttpGet (status_url rendered)] /\ app m' = app m.
Proof.
  intros Hiv Hr Hs. apply step_outcome in Hs.
  inversion Hs; subst; assert (iv0 = iv) as -> by congruence; [|congruence].
  rewrite emitted_build. split; [congruence|reflexivity].
Qed.

(** ** The order of the requests *)

Lemma lookup_stopped (h j : nat) (l : list Interval) (iv' : Interval) :
  alter stopped h l !! j = Some iv' ->
  exists iv, l !! j = Some iv /\ iv_proj iv' = iv_proj iv.
Proof.
  intros H. destruct (decide (h = j)) as [->|Hne].
  - rewrite list_lookup_alter_eq in H. destruct (l !! j) as [iv|]; [|discriminate].
    injection H as <-. by exists iv.
  - rewrite list_lookup_alter_ne in H by done. by exists iv'.
Qed.

Lemma lookup_parked (l extra : list (option Pending)) (rid : nat) (k : Pending) :
  (l ++ extra) !! rid = Some (Some k) ->
  l !! rid = Some (Some k) \/ In (Some k) extra.
Proof.
  intros H. apply lookup_app_Some in H as [H|[_ H]]; [by left|right].
  apply list_elem_of_In. eapply list_elem_of_lookup_2, H.
Qed.

Ltac parked_before H :=
  first [ exact H | apply lookup_settle_Some in H; exact H ].

(** One part of [outcome_tables], when the step does nothing special to
    the table in question. *)
Ltac tables_routine :=
  match goal with
  | |- forall h iv', _ !! h = Some iv' -> (exists iv, _) \/ _ =>
      let H := fresh in intros ? iv' H; left; exists iv'; split; [exact H|reflexivity]
  | |- forall rid p, _ !! rid = Some (Some (PProcess p)) -> _ =>
      let H := fresh in
      intros ? ? H;
      first [ left; parked_before H
            | apply lookup_parked in H as [H|[H|[]]];
              [left; parked_before H
              |first [discriminate H
                     | injection H as <-; right; eexists; split; [eassumption|by left]]] ]
  | |- forall rid, _ !! rid = Some (Some PUpload) -> _ =>
      let H := fresh in
      intros ? H;
      first [ left; parked_before H
            | apply lookup_parked in H as [H|[H|[]]];
              [left; parked_before H
              |first [discriminate H | right; eexists; by left]] ]
  | |- forall url, In _ _ -> _ =>
      let H := fresh in intros ? H; cbn in H; intuition discriminate
  end.

(** Where the timers, the parked continuations and the requests of a step
    come from. *)
Lemma outcome_tables (t : Z) (ev : event) (m m' : Machine) :
  outcome_of t m ev m' ->
  exists es,
    trace m' = trace m ++ map (pair t) es
    /\ (forall h iv', intervals m' !! h = Some iv' ->
          (exists iv, intervals m !! h = Some iv /\ iv_proj iv' = iv_proj iv)
          \/ (exists rid, pending m !! rid = Some (Some (PProcess (iv_proj iv')))))
    /\ (forall rid p, pending m' !! rid = Some (Some (PProcess p)) ->
          pending m !! rid = Some (Some (PProcess p))
          \/ exists rendered,
               to_string p = Some rendered
               /\ In (HttpPost (process_url rendered) None) es)
    /\ (forall rid, pending m' !! rid = Some (Some PUpload) ->
          pending m !! rid = Some (Some PUpload)
          \/ exists form, In (HttpPost upload_url (Some form)) es)
    /\ (forall url, In (HttpGet url) es ->
          exists h iv rendered,
            intervals m !! h = Some iv /\ to_string (iv_proj iv) = Some rendered
            /\ url = status_url rendered)
    /\ (forall url, In (HttpPost url None) es ->
          exists rid p, pending m !! rid = Some (Some PUpload) /\ url = process_url p).
Proof.
  intros Ho.
  destruct Ho; cbn [build trace intervals pending]; rewrite traced_app;
    eexists; (split; [reflexivity|]); (split; [|split; [|split; [|split]]]);
    try solve [tables_routine].
  - (* the firing of a timer: its project is kept *)
    intros h' iv' H'. left.
    destruct (decide (h = h')) as [->|Hne].
    + rewrite list_lookup_insert_eq in H' by (eapply lookup_lt_Some; eauto).
      injection H' as <-. by exists iv.
    + rewrite list_lookup_insert_ne in H' by done. by exists iv'.
  - intros url [H'|[]]. injection H' as <-. by exists h, iv, rendered.
  - intros h' iv' H'. left.
    destruct (decide (h = h')) as [->|Hne].
    + rewrite list_lookup_insert_eq in H' by (eapply lookup_lt_Some; eauto).
      injection H' as <-. by exists iv.
    + rewrite list_lookup_insert_ne in H' by done. by exists iv'.
  - intros url [H'|[]]. injection H' as <-. by exists rid, rendered.
  - (* the new timer polls the project parked with the request *)
    intros h' iv' H'. apply lookup_snoc_Some in H' as [[_ H']|[_ <-]].
    + left. by exists iv'.
    + right. by exists rid.
  - (* a status response only stops timers *)
    intros h' iv' H'. left.
    destruct (polled_timers_cases h (field data "status") (intervals m))
      as [(E & _)|(E & _)]; rewrite E in H'; [by exists iv'|].
    by apply lookup_stopped in H'.
  - intros url Hin. unfold poll_effects in Hin.
    destruct (is_str _ (u "completed")), (is_str _ (u "failed"));
      cbn in Hin; intuition discriminate.
  - intros url Hin. unfold poll_effects in Hin.
    destruct (is_str _ (u "completed")), (is_str _ (u "failed"));
      cbn in Hin; intuition discriminate.
Qed.

Lemma issued_before_grows (m m' : Machine) (more : list (Z * effect)) (i i' : nat) (e : effect) :
  trace m' = trace m ++ more -> (i <= i')%nat ->
  issued_before m i e -> issued_before m' i' e.
Proof.
  intros Ht Hi (j & t & Hj & H). exists j, t. split; [lia|].
  rewrite Ht. by apply lookup_app_l_Some.
Qed.

Lemma issued_now (m m' : Machine) (t : Z) (es : list effect) (e : effect) :
  trace m' = trace m ++ map (pair t) es -> In e es ->
  issued_before m' (length (trace m')) e.
Proof.
  intros Ht Hin. apply list_elem_of_In, list_elem_of_lookup_1 in Hin as [k Hk].
  exists (length (trace m) + k)%nat, t. rewrite Ht. split.
  - rewrite length_app, length_map. apply lookup_lt_Some in Hk. lia.
  - rewrite lookup_app_r by lia.
    replace (length (trace m) + k - length (trace m))%nat with k by lia.
    by rewrite list_lookup_fmap, Hk.
Qed.

Lemma requests_ordered_step (t : Z) (ev : event) (m m' : Machine) :
  requests_ordered m -> step (t, ev) m = Some m' -> requests_ordered m'.
Proof.
  intros (HA & HB & HC & HD & HE) Hs.
  destruct (outcome_tables _ _ _ _ (step_outcome _ _ _ _ Hs))
    as (es & Ht & T1 & T2 & T3 & T4 & T5).
  assert (Hlen : (length (trace m) <= length (trace m'))%nat).
  { rewrite Ht, length_app. lia. }
  assert (HB' : forall rid projId, pending m' !! rid = Some (Some (PProcess projId)) ->
                  exists rendered,
                    to_string projId = Some rendered
                    /\ issued_before m' (length (trace m'))
                         (HttpPost (process_url rendered) None)).
  { intros rid p Hp. destruct (T2 rid p Hp) as [Hold|(s & Hr & Hnew)].
    - destruct (HB rid p Hold) as (s & Hr & Hb). exists s. split; [exact Hr|].
      eapply issued_before_grows; eauto.
    - exists s. split; [exact Hr|]. eapply issued_now; eauto. }
  assert (New : forall i t0 e, trace m' !! i = Some (t0, e) ->
                  trace m !! i = Some (t0, e)
                  \/ ((length (trace m) <= i)%nat /\ In e es)).
  { intros i t0 e Hi. rewrite Ht in Hi. apply lookup_app_Some in Hi as [Hi|[Hge Hi]].
    - by left.
    - right. split; [exact Hge|].
      rewrite list_lookup_fmap in Hi.
      destruct (es !! (i - length (trace m))%nat) as [e'|] eqn:He; [|discriminate].
      injection Hi as _ <-. apply list_elem_of_In. eapply list_elem_of_lookup_2, He. }
  split; [|split; [exact HB'|split; [|split]]].
  - intros h iv' Hiv'. destruct (T1 h iv' Hiv') as [(iv & Hiv & ->)|[rid Hp]].
    + destruct (HA h iv Hiv) as (s & Hr & Hb). exists s. split; [exact Hr|].
      eapply issued_before_grows; eauto.
    + destruct (HB rid _ Hp) as (s & Hr & Hb). exists s. split; [exact Hr|].
      eapply issued_before_grows; eauto.
  - intros rid Hp. destruct (T3 rid Hp) as [Hold|[form Hnew]].
    + destruct (HC rid Hold) as [form Hi]. exists form.
      eapply issued_before_grows; eauto.
    + exists form. eapply issued_now; eauto.
  - intros i t0 url Hi. destruct (New _ _ _ Hi) as [Hold|[Hge Hin]].
    + destruct (HD i t0 url Hold) as (p & -> & Hb). exists p. split; [reflexivity|].
      eapply issued_before_grows; eauto.
    + destruct (T4 url Hin) as (h & iv & s & Hiv & Hr & ->).
      destruct (HA h iv Hiv) as (s' & Hr' & Hb).
      assert (s' = s) as -> by congruence.
      exists s. split; [reflexivity|]. eapply issued_before_grows; eauto.
  - intros i t0 url Hi. destruct (New _ _ _ Hi) as [Hold|[Hge Hin]].
    + destruct (HE i t0 url Hold) as (p & form & -> & Hb). exists p, form.
      split; [reflexivity|]. eapply issued_before_grows; eauto.
    + destruct (T5 url Hin) as (rid & p & Hp & ->).
      destruct (HC rid Hp) as [form Hb]. exists p, form.
      split; [reflexivity|]. eapply issued_before_grows; eauto.
Qed.

Lemma reachable_ordered (m : Machine) : reachable m -> requests_ordered m.
Proof.
  revert m. apply reachable_ind.
  - repeat split; intros; discriminate.
  - intros t ev m m' Hm Hs. eapply requests_ordered_step; eauto.
Qed.

(** In a reachable machine the project identifier of every timer and of
    every parked start-processing request has a string form: the
    start-processing URL was made from it. *)
Lemma reachable_renders (m : Machine) :
  reachable m ->
  (forall h iv, intervals m !! h = Some iv -> is_Some (to_string (iv_proj iv)))
  /\ (forall rid projId, pending m !! rid = Some (Some (PProcess projId)) ->
        is_Some (to_string projId)).
Proof.
  intros Hr. destruct (reachable_ordered m Hr) as (HA & HB & _). split.
  - intros h iv Hiv. destruct (HA h iv Hiv) as (s & -> & _). by eexists.
  - intros rid p Hp. destruct (HB rid p Hp) as (s & -> & _). by eexists.
Qed.

(** ** Input validation *)

(** C4. [startEditing] with no video file, or with a prompt that is empty
    once trimmed, only raises an alert: the component state, the table of
    pending requests and the timers are as before, so neither the upload nor
    the start-processing request is issued.  With a file and a prompt that is
    not blank it issues the upload request, and nothing else. *)
Theorem startEditing_validates_input (m : Machine) :
  (videoFile (app m) = None \/ trim (prompt (app m)) = [] ->
   exists msg,
     exec startEditing m = with_trace (trace m ++ [(now m, Alert msg)]) m)
  /\ (forall file,
        videoFile (app m) = Some file ->
        trim (prompt (app m)) <> [] ->
        emitted m (exec startEditing m)
          = [HttpPost upload_url (Some (upload_form file (prompt (app m))))]
        /\ pending (exec startEditing m) = pending m ++ [Some PUpload]).
Proof.
  split.
  - intros H. destruct (videoFile (app m)) as [file|] eqn:Hf.
    + destruct H as [H|H]; [discriminate|].
      eexists. eapply startEditing_blank_prompt; eauto.
    + eexists. by apply startEditing_no_file.
  - intros file Hf Hp.
    destruct (startEditing_uploads m file Hf Hp) as (Ht & Hq).
    split; [|exact Hq]. by rewrite (emitted_app _ _ _ Ht).
Qed.

Lemma startEditing_validates_input_witness :
  exists msg,
    exec startEditing (with_app (with_prompt (u "  ")) initial_machine)
    = with_trace [(0, Alert msg)] (with_app (with_prompt (u "  ")) initial_machine).
Proof.
  apply (proj1 (startEditing_validates_input
                  (with_app (with_prompt (u "  ")) initial_machine))).
  right. reflexivity.
Defined.

(** ** Downloads *)

(** C9, as the code has it.  [downloadVideo] does nothing while [projectId]
    is [null], or any other falsy value (the guard is [!projectId]): no
    window is opened and no log line is added.  With a truthy [projectId]
    that has a string form it opens exactly
    http://localhost:8000/api/download/<projectId>/<platform> in a new
    window and logs the download.  With a truthy [projectId] that has no
    string form, making the URL raises, and nothing is opened or logged. *)
Theorem downloadVideo_guard (platform : jstring) (m : Machine) :
  (projectId (app m) = JNull -> exec (downloadVideo platform) m = m)
  /\ (truthy (projectId (app m)) = false -> exec (downloadVideo platform) m = m)
  /\ (forall rendered,
        truthy (projectId (app m)) = true ->
        to_string (projectId (app m)) = Some rendered ->
        emitted m (exec (downloadVideo platform) m)
        = [WindowOpen
             (u "http://localhost:8000/api/download/" ++ rendered ++ u "/" ++ platform)
             (u "_blank")]
        /\ terminalLogs (app (exec (downloadVideo platform) m))
           = terminalLogs (app m)
             ++ [u "[AI] " ++ u "Downloading " ++ platform ++ u " version..."])
  /\ (truthy (projectId (app m)) = true ->
      to_string (projectId (app m)) = None ->
      exec (downloadVideo platform) m = m).
Proof.
  rewrite exec_downloadVideo. split; [|split; [|split]].
  - intros ->. reflexivity.
  - intros ->. reflexivity.
  - intros rendered -> ->. rewrite emitted_build, download_url_spelled. by split.
  - intros -> ->. reflexivity.
Qed.

Lemma downloadVideo_guard_witness :
  emitted (with_app (with_projectId (JStr (u "p1"))) initial_machine)
    (exec (downloadVideo (u "youtube"))
       (with_app (with_projectId (JStr (u "p1"))) initial_machine))
  = [WindowOpen (u "http://localhost:8000/api/download/p1/youtube") (u "_blank")].
Proof.
  apply (proj1 (proj1 (proj2 (proj2 (downloadVideo_guard (u "youtube")
                                       (with_app (with_projectId (JStr (u "p1")))
                                          initial_machine))))
                  (u "p1") eq_refl eq_refl)).
Defined.

(** C9 as stated does not hold.  The upload of a run is answered with the
    project identifier [0]: the start-processing request is issued for it,
    the Job is polled and reported [completed] with an output, and with
    the identifier [0] set [downloadVideo] opens nothing.  The upload of
    another run is answered with the project identifier [{"toString": 1}]:
    the component stores it (it is not [null], and truthy), and
    [downloadVideo] then opens nothing either. *)
Lemma download_with_identifier_set :
  (exists m,
      run (finished_run (JNum 0)) initial_machine = Some m
      /\ projectId (app m) = JNum 0
      /\ In (3, HttpPost (u "http://localhost:8000/api/process/complete/0") None)
           (trace m)
      /\ status (app m) = JStr (u "completed")
      /\ master (outputs (app m)) = JStr (u "out/0.mp4")
      /\ exec (downloadVideo (u "youtube")) m = m)
  /\ (exists m,
         run (uploaded_as unrenderable) initial_machine = Some m
         /\ projectId (app m) = unrenderable
         /\ truthy (projectId (app m)) = true
         /\ exec (downloadVideo (u "youtube")) m = m).
Proof.
  split; eexists; (split; [vm_compute; reflexivity|]).
  - split; [reflexivity|]. split; [right; left; reflexivity|]. repeat split.
  - repeat split.
Qed.

(** ** The analysis summary *)

Lemma shown_falsy (v fallback : jsval) :
  truthy v = false -> shown v fallback = to_string fallback.
Proof. unfold shown, js_or. by intros ->. Qed.

Lemma shown_truthy (v fallback : jsval) :
  truthy v = true -> shown v fallback = to_string v.
Proof. unfold shown, js_or. by intros ->. Qed.

(** The summary after a status response, whatever the body. *)
Lemma poll_summary (h : nat) (data : jsval) (m : Machine) :
  aiUnderstanding (app (exec (poll_response h (HttpOk data)) m))
  = default (aiUnderstanding (app m)) (summary data (aiUnderstanding (app m))).
Proof.
  rewrite exec_poll_response.
  destruct (get_prop data (u "status")) eqn:Hst.
  - unfold after_poll, summary_renders, polled, poll_aborted, summary.
    destruct (truthy (field data "ai_analysis")); [|reflexivity].
    by destruct (analysis_lines (field data "ai_analysis")).
  - unfold summary, field. by destruct data.
Qed.

(** C10, as the code has it.  When the body of a status response has a
    (truthy) [ai_analysis] whose [mode], [detected_emotion] and
    [operations_count] can be written into a string, the summary becomes
    the six lines of the callback, in which an absent or falsy [mode] is
    shown as [custom], [detected_emotion] as [balanced] and
    [operations_count] as [0], and a truthy field as its string form.  When
    one of the three has no string form the callback raises before it sets
    the summary, which stays as it was; so it does without an
    [ai_analysis]. *)
Theorem analysis_summary_defaults (h : nat) (data : jsval) (m : Machine) :
  let m' := exec (poll_response h (HttpOk data)) m in
  let analysis := field data "ai_analysis" in
  (forall mode emotion count,
      truthy analysis = true ->
      shown (field analysis "mode") (JStr (u "custom")) = Some mode ->
      shown (field analysis "detected_emotion") (JStr (u "balanced")) = Some emotion ->
      shown (field analysis "operations_count") (JNum 0) = Some count ->
      aiUnderstanding (app m')
      = [ bullet ++ u " Mode: " ++ mode;
          bullet ++ u " Detected emotion: " ++ emotion;
          bullet ++ u " Operations: " ++ count;
          bullet ++ u " Platforms: YouTube, Instagram, TikTok";
          bullet ++ u " Audio enhancement: Active";
          bullet ++ u " Subtitle generation: Active" ])
  /\ (forall v,
         truthy v = false ->
         shown v (JStr (u "custom")) = Some (u "custom")
         /\ shown v (JStr (u "balanced")) = Some (u "balanced")
         /\ shown v (JNum 0) = Some (u "0"))
  /\ (forall v fallback, truthy v = true -> shown v fallback = to_string v)
  /\ (truthy analysis = true ->
      shown (field analysis "mode") (JStr (u "custom")) = None
      \/ shown (field analysis "detected_emotion") (JStr (u "balanced")) = None
      \/ shown (field analysis "operations_count") (JNum 0) = None ->
      aiUnderstanding (app m') = aiUnderstanding (app m))
  /\ (truthy analysis = false -> aiUnderstanding (app m') = aiUnderstanding (app m)).
Proof.
  cbv zeta. rewrite poll_summary. unfold summary, analysis_lines.
  split; [|split; [|split; [|split]]].
  - intros mode emotion count -> -> -> ->. reflexivity.
  - intros v Hv. by rewrite !shown_falsy.
  - intros v fallback. apply shown_truthy.
  - intros -> H.
    destruct (shown (field (field data "ai_analysis") "mode") _),
      (shown (field (field data "ai_analysis") "detected_emotion") _),
      (shown (field (field data "ai_analysis") "operations_count") _);
      try reflexivity.
    destruct H as [H|[H|H]]; discriminate.
  - intros ->. reflexivity.
Qed.

Lemma analysis_summary_defaults_witness :
  aiUnderstanding
    (app (exec (poll_response 0
                  (HttpOk (JObj [(u "status", JStr (u "analyzing"));
                                 (u "ai_analysis",
                                  JObj [(u "mode", JStr (u "cinematic"));
                                        (u "operations_count", JNum 0)])])))
            initial_machine))
  = [ bullet ++ u " Mode: " ++ u "cinematic";
      bullet ++ u " Detected emotion: " ++ u "balanced";
      bullet ++ u " Operations: " ++ u "0";
      bullet ++ u " Platforms: YouTube, Instagram, TikTok";
      bullet ++ u " Audio enhancement: Active";
      bullet ++ u " Subtitle generation: Active" ].
Proof.
  apply (proj1 (analysis_summary_defaults 0
                  (JObj [(u "status", JStr (u "analyzing"));
                         (u "ai_analysis",
                          JObj [(u "mode", JStr (u "cinematic"));
                                (u "operations_count", JNum 0)])])
                  initial_machine)
           (u "cinematic") (u "balanced") (u "0") eq_refl eq_refl eq_refl eq_refl).
Defined.

(** C10 as stated does not hold.  The one status poll of this run is
    answered by a body whose [ai_analysis] has a [mode] without a string
    form and no [detected_emotion]: the callback raises, and the summary is
    still the one [startEditing] has set; no fallback value is shown. *)
Lemma summary_without_fallbacks :
  exists m,
    run (one_poll (unrenderable_summary "processing")) initial_machine = Some m
    /\ truthy (field (unrenderable_summary "processing") "ai_analysis") = true
    /\ field (field (unrenderable_summary "processing") "ai_analysis") "detected_emotion"
       = JUndef
    /\ status (app m) = JStr (u "processing")
    /\ aiUnderstanding (app m) = planning_lines
    /\ last (trace m) = Some (2005, ConsoleError (u "Status poll error:") cannot_convert).
Proof.
  eexists. split; [vm_compute; reflexivity|]. repeat split.
Qed.

(** ** Completion *)

Lemma requested_platforms_upload_form (file : File) (p : jstring) :
  requested_platforms (upload_form file p) = [u "youtube"; u "instagram"; u "tiktok"].
Proof. reflexivity. Qed.

(** The outputs after a status response, whatever the body. *)
Lemma poll_outputs (h : nat) (data : jsval) (m : Machine) :
  outputs (app (exec (poll_response h (HttpOk data)) m))
  = if is_str (field data "status") (u "completed") && summary_renders data
    then {| youtube := field data "output_video"; instagram := field data "output_video";
            tiktok := field data "output_video"; master := field data "output_video" |}
    else outputs (app m).
Proof.
  rewrite exec_poll_response.
  destruct (get_prop data (u "status")) eqn:Hst.
  - unfold after_poll. destruct (summary_renders data); cbn [app outputs polled];
      [by rewrite andb_true_r|by rewrite andb_false_r].
  - destruct (is_str (field data "status") (u "completed")) eqn:Hc; [|reflexivity].
    apply field_status_readable in Hc. congruence.
Qed.

(** C1, as the code has it.  When a status response reports [completed]
    and the callback gets past the summary, the component records the one
    value of the body's [output_video] as the output of [youtube],
    [instagram], [tiktok] and [master], hence of every platform named in the
    upload form; every requested platform then has an output exactly when
    the body carries a (truthy) [output_video]. *)
Theorem completed_records_output_video
    (h : nat) (data : jsval) (m : Machine) (file : File) (p : jstring) :
  is_str (field data "status") (u "completed") = true ->
  summary_renders data = true ->
  let o := outputs (app (exec (poll_response h (HttpOk data)) m)) in
  let ov := field data "output_video" in
  o = {| youtube := ov; instagram := ov; tiktok := ov; master := ov |}
  /\ Forall (fun platform => output_of o platform = ov)
       (requested_platforms (upload_form file p))
  /\ (Forall (fun platform => truthy (output_of o platform) = true)
        (requested_platforms (upload_form file p))
      <-> truthy ov = true).
Proof.
  intros Hst Hr. cbv zeta. rewrite poll_outputs, Hst, Hr. cbn [andb].
  rewrite requested_platforms_upload_form.
  split; [reflexivity|]. split.
  - repeat constructor.
  - split.
    + intros H. by inversion H.
    + intros H. repeat constructor; exact H.
Qed.

Lemma completed_records_output_video_witness :
  outputs (app (exec (poll_response 0
                        (HttpOk (JObj [(u "status", JStr (u "completed"));
                                       (u "output_video", JStr (u "out/p1.mp4"))])))
                  initial_machine))
  = {| youtube := JStr (u "out/p1.mp4"); instagram := JStr (u "out/p1.mp4");
       tiktok := JStr (u "out/p1.mp4"); master := JStr (u "out/p1.mp4") |}.
Proof.
  apply (completed_records_output_video 0
           (JObj [(u "status", JStr (u "completed"));
                  (u "output_video", JStr (u "out/p1.mp4"))])
           initial_machine clip []).
  - reflexivity.
  - reflexivity.
Defined.

(** C1 as stated does not hold.  The upload of this run asks for
    [youtube]; when the one status poll is answered [completed] by a body
    without [output_video], the component ends with status [completed] and
    no output for [youtube].  And when it is answered [completed] by a body
    with an [output_video] and an [ai_analysis] whose [mode] has no string
    form, the callback raises before it records any output: the status is
    [completed] and the output of [youtube] is still [null]. *)
Lemma completed_without_artifact :
  (exists m,
      run completed_without_output initial_machine = Some m
      /\ In (2, HttpPost upload_url (Some (upload_form clip (u " make it fun "))))
           (trace m)
      /\ In (u "youtube") (requested_platforms (upload_form clip (u " make it fun ")))
      /\ status (app m) = JStr (u "completed")
      /\ output_of (outputs (app m)) (u "youtube") = JUndef)
  /\ (exists m,
         run (one_poll (unrenderable_summary "completed")) initial_machine = Some m
         /\ field (unrenderable_summary "completed") "output_video"
            = JStr (u "out/p1.mp4")
         /\ status (app m) = JStr (u "completed")
         /\ output_of (outputs (app m)) (u "youtube") = JNull).
Proof.
  split.
  - eexists. split; [vm_compute; reflexivity|].
    split; [left; reflexivity|].
    split; [left; reflexivity|].
    split; reflexivity.
  - eexists. split; [vm_compute; reflexivity|]. repeat split.
Qed.

(** ** Progress *)

(** The stored progress after a status response that can be read. *)
Lemma poll_progress (h : nat) (data st : jsval) (m : Machine) :
  get_prop data (u "status") = Some st ->
  progress (app (exec (poll_response h (HttpOk data)) m)) = reported data.
Proof.
  intros Hst. rewrite exec_poll_response, Hst. unfold after_poll.
  by destruct (summary_renders data).
Qed.

(** C2, as the code has it.  After each handled status response the stored
    progress is the body's [progress_percentage], or [0] when that is absent
    or falsy; the component keeps no maximum.  So the stored values are
    non-decreasing whenever the values reported by the responses, in the
    order in which they are handled, are. *)
Theorem stored_progress_follows_reports (h : nat) (bodies : list jsval) (m : Machine) :
  Forall (fun data => is_Some (get_prop data (u "status"))) bodies ->
  stored_progress h bodies m = map reported bodies
  /\ (forall zs, map reported bodies = map JNum zs -> non_decreasing zs ->
        exists ws, stored_progress h bodies m = map JNum ws /\ non_decreasing ws).
Proof.
  intros Hb.
  assert (E : stored_progress h bodies m = map reported bodies).
  { revert m. induction Hb as [|data rest [st Hst] _ IH]; intros m; [reflexivity|].
    cbn [stored_progress map]. rewrite IH. f_equal.
    exact (poll_progress h data st m Hst). }
  split; [exact E|].
  intros zs Hz Hmono. exists zs. by rewrite E.
Qed.

Lemma stored_progress_follows_reports_witness :
  stored_progress 0 [status_body "analyzing" 10; status_body "processing" 40]
    initial_machine
  = [JNum 10; JNum 40].
Proof.
  apply (proj1 (stored_progress_follows_reports 0
                  [status_body "analyzing" 10; status_body "processing" 40]
                  initial_machine
                  ltac:(repeat constructor; eexists; reflexivity))).
Defined.

(** C2 as stated does not hold.  Two polls of one Job are in flight
    together; the first is answered 20 and the second 40, both with status
    [processing], and the second answer is handled first (the same happens
    with answers in order from a backend that reports 40 and then 20): the
    stored progress goes from 40 down to 20 while the status is not
    terminal. *)
Lemma stored_progress_decreases :
  map (fun m => (status (app m), progress (app m)))
    (drop 7 (states_along
               (overlapping_polls (3%nat, status_body "processing" 40)
                                  (2%nat, status_body "processing" 20))
               initial_machine))
  = [ (JStr (u "processing"), JNum 40); (JStr (u "processing"), JNum 20) ].
Proof. vm_compute. reflexivity. Qed.

(** ** Start-processing on the Orchestrator *)

Lemma running_after_start (p : nat) (o : Orchestrator.State) :
  is_Some (Orchestrator.projects o !! p) ->
  Orchestrator.running p (Orchestrator.start_processing p o) = true.
Proof.
  intros [pl Hp]. unfold Orchestrator.start_processing. rewrite Hp.
  destruct (Orchestrator.running p o) eqn:Hr; [exact Hr|].
  unfold Orchestrator.running. cbn. by rewrite lookup_insert_eq.
Qed.

Lemma start_processing_running (p : nat) (o : Orchestrator.State) :
  Orchestrator.running p o = true -> Orchestrator.start_processing p o = o.
Proof.
  intros Hr. unfold Orchestrator.start_processing.
  destruct (Orchestrator.projects o !! p); [|reflexivity]. by rewrite Hr.
Qed.

(** C8.  On the Orchestrator of the spec, start-processing on a Project
    whose Job is not terminal changes nothing: no Job is created and no
    execution is started, and the Job (status, progress, artifacts) is as
    it was.  Hence calling it twice in a row is the same as calling it
    once, and the first call on an idle Project starts exactly one
    execution. *)
Theorem start_processing_idempotent (p : nat) (o : Orchestrator.State) :
  (Orchestrator.running p o = true -> Orchestrator.start_processing p o = o)
  /\ Orchestrator.start_processing p (Orchestrator.start_processing p o)
     = Orchestrator.start_processing p o
  /\ (is_Some (Orchestrator.projects o !! p) ->
      Orchestrator.running p o = false ->
      Orchestrator.executions_of p (Orchestrator.start_processing p o)
      = S (Orchestrator.executions_of p o)
      /\ Orchestrator.executions_of p
           (Orchestrator.start_processing p (Orchestrator.start_processing p o))
         = S (Orchestrator.executions_of p o)).
Proof.
  assert (Twice : Orchestrator.start_processing p (Orchestrator.start_processing p o)
                  = Orchestrator.start_processing p o).
  { destruct (Orchestrator.projects o !! p) as [pl|] eqn:Hp.
    - apply start_processing_running, running_after_start. by exists pl.
    - unfold Orchestrator.start_processing. by rewrite Hp, Hp. }
  split; [apply start_processing_running|]. split; [exact Twice|].
  intros [pl Hp] Hr. rewrite Twice.
  assert (Orchestrator.executions_of p (Orchestrator.start_processing p o)
          = S (Orchestrator.executions_of p o)) as ->; [|done].
  unfold Orchestrator.start_processing, Orchestrator.executions_of.
  rewrite Hp, Hr. cbn. rewrite filter_app, length_app. cbn.
  rewrite decide_True by done. cbn. lia.
Qed.

Lemma start_processing_idempotent_witness :
  let o := {| Orchestrator.projects := {[ 7%nat := ["youtube"%string] ]};
              Orchestrator.jobs :=
                {[ 7%nat := {| Orchestrator.job_status := Orchestrator.processing;
                               Orchestrator.job_progress := 40;
                               Orchestrator.job_artifacts := [] |} ]};
              Orchestrator.executions := [7%nat] |} in
  Orchestrator.start_processing 7 o = o.
Proof.
  cbv zeta.
  apply (proj1 (start_processing_idempotent 7 _)).
  reflexivity.
Defined.

(** ** Terminal statuses *)

(** After [inversion] on a step: the rules that do not apply. *)
Ltac other_rules :=
  cbn [request_error] in *;
  try congruence;
  try match goal with
      | E : get_prop ?d ?k = Some _, H : match get_prop ?d ?k with _ => _ end = _ |- _ =>
          rewrite E in H; discriminate
      end.

(** A status response with a terminal status that the callback handles to
    the end: the callback does what [poll_effects] lists and stops its
    timer. *)
Lemma terminal_response (m m1 : Machine) (t : Z) (rid h : nat) (data : jsval) (lit : jstring) :
  reachable m ->
  pending m !! rid = Some (Some (PStatus h)) ->
  field data "status" = JStr lit ->
  lit = u "completed" \/ lit = u "failed" ->
  summary_renders data = true ->
  step (t, HttpDone rid (HttpOk data)) m = Some m1 ->
  emitted m m1 = poll_effects h (JStr lit)
  /\ app m1 = polled data (app m)
  /\ exists iv1, intervals m1 !! h = Some iv1 /\ iv_active iv1 = false.
Proof.
  intros Hreach Hp Hst Hlit Hr Hs.
  destruct (proj1 (reachable_invariant m Hreach) rid h Hp) as [iv Hiv].
  assert (Hread : get_prop data (u "status") = Some (field data "status")).
  { apply (field_status_readable data lit). rewrite Hst. by apply is_str_eq. }
  apply step_outcome in Hs.
  inversion Hs; subst; other_rules.
  assert (h0 = h) as -> by congruence.
  rewrite emitted_build, Hst. cbn [build app intervals].
  split; [reflexivity|]. split; [reflexivity|].
  exists (stopped iv). split; [|reflexivity].
  destruct (polled_timers_cases h (JStr lit) (intervals m))
    as [(_ & Hc & Hf)|(-> & _)].
  - destruct Hlit as [-> | ->]; discriminate.
  - by rewrite list_lookup_alter_eq, Hiv.
Qed.

(** C3, as the code has it.  When the response to a status poll of a timer
    reports [completed] or [failed] and the callback gets past the summary,
    the callback clears that timer: in every continuation the timer never
    fires again, so no further status request is issued by it; and when no
    poll of that timer is in flight at that moment, none ever is again, so
    no later status is observed by that polling loop. *)
Theorem terminal_status_stops_polling
    (m m1 : Machine) (t : Z) (rid h : nat) (data : jsval) (lit : jstring) :
  reachable m ->
  pending m !! rid = Some (Some (PStatus h)) ->
  field data "status" = JStr lit ->
  lit = u "completed" \/ lit = u "failed" ->
  summary_renders data = true ->
  step (t, HttpDone rid (HttpOk data)) m = Some m1 ->
  In (ClearInterval h) (emitted m m1)
  /\ forall evs m',
       run evs m1 = Some m' ->
       fire_times h evs = []
       /\ (forall t', step (t', TimerFire h) m' = None)
       /\ ((forall r, pending m1 !! r <> Some (Some (PStatus h))) ->
           forall r, pending m' !! r <> Some (Some (PStatus h))).
Proof.
  intros Hreach Hp Hst Hlit Hr Hs.
  destruct (terminal_response _ _ _ _ _ _ _ Hreach Hp Hst Hlit Hr Hs)
    as (He & _ & iv1 & Hiv1 & Ha1).
  split.
  - rewrite He. destruct Hlit as [-> | ->]; by left.
  - intros evs m' Hrun.
    destruct (stopped_timer_run evs m1 m' h iv1 Hiv1 Ha1 Hrun)
      as ((iv' & Hiv' & Ha') & Hfire & Hpend).
    split; [exact Hfire|]. split; [|exact Hpend].
    intros t'. eapply stopped_timer_silent; eauto.
Qed.

Lemma terminal_status_stops_polling_witness :
  exists m m1,
    run (started_p1 ++ [(2004, TimerFire 0%nat)]) initial_machine = Some m
    /\ step (2005, HttpDone 2%nat (HttpOk (status_body "completed" 100))) m = Some m1
    /\ In (ClearInterval 0%nat) (emitted m m1)
    /\ forall t', step (t', TimerFire 0%nat) m1 = None.
Proof.
  eexists. eexists.
  split; [vm_compute; reflexivity|]. split; [vm_compute; reflexivity|].
  match goal with
  | |- In _ (emitted ?m ?m1) /\ _ =>
      pose proof (terminal_status_stops_polling m m1 2005 2%nat 0%nat
                    (status_body "completed" 100) (u "completed")) as T
  end.
  destruct T as [Hclear Hlater].
  - exists (started_p1 ++ [(2004, TimerFire 0%nat)]). vm_compute. reflexivity.
  - reflexivity.
  - reflexivity.
  - by left.
  - reflexivity.
  - vm_compute. reflexivity.
  - split; [exact Hclear|]. intros t'.
    exact (proj1 (proj2 (Hlater [] _ eq_refl)) t').
Defined.

(** C3 as stated does not hold.  (1) Two polls of the Job are in flight
    together.  When both are answered [completed], the second answer is
    handled after the timer was cleared: the status is observed again and
    the completion is logged a second time.  When the answer [completed] of
    the later poll overtakes the answer [processing] of the earlier one, the
    component goes from [completed] back to [processing].  (2) The uploads
    of two runs are answered with the same project identifier, so that two
    timers poll the Job: the first is cleared on [completed] with nothing
    in flight, then the second polls the Job again and its answer
    [processing] is observed.  (3) The answer [completed] carries an
    [ai_analysis] whose [mode] has no string form: the callback raises
    before it clears the timer, which is still live and polls again. *)
Lemma status_observed_after_terminal :
  (map (fun m => (status (app m), length (terminalLogs (app m))))
     (drop 7 (states_along
                (overlapping_polls (2%nat, status_body "completed" 100)
                                   (3%nat, status_body "completed" 100))
                initial_machine))
   = [ (JStr (u "completed"), 8%nat); (JStr (u "completed"), 10%nat) ]
   /\ map (fun m => (status (app m), length (terminalLogs (app m))))
        (drop 7 (states_along
                   (overlapping_polls (3%nat, status_body "completed" 100)
                                      (2%nat, status_body "processing" 60))
                   initial_machine))
      = [ (JStr (u "completed"), 8%nat); (JStr (u "processing"), 18%nat) ])
  /\ map (fun m => (status (app m), pending m, map iv_active (intervals m),
                    last (trace m)))
       (drop 9 (states_along two_timers_on_p1 initial_machine))
     = [ (JStr (u "completed"), [None; None; None; None; None], [false; true],
          Some (2005, ClearInterval 0));
         (JStr (u "completed"), [None; None; None; None; None; Some (PStatus 1)],
          [false; true],
          Some (2007, HttpGet (u "http://localhost:8000/api/status/p1/detailed")));
         (JStr (u "processing"), [None; None; None; None; None; None], [false; true],
          Some (2007, HttpGet (u "http://localhost:8000/api/status/p1/detailed"))) ]
  /\ map (fun m => (status (app m), map iv_active (intervals m), last (trace m)))
       (drop 6 (states_along
                  (one_poll (unrenderable_summary "completed")
                   ++ [(4004, TimerFire 0%nat)])
                  initial_machine))
     = [ (JStr (u "completed"), [true],
          Some (2005, ConsoleError (u "Status poll error:") cannot_convert));
         (JStr (u "completed"), [true],
          Some (4004, HttpGet (u "http://localhost:8000/api/status/p1/detailed"))) ].
Proof. repeat split; vm_compute; reflexivity. Qed.

(** ** Failure reports *)

(** C5, as the code has it.  A status response that says [failed], handled
    by the callback to the end, makes it clear its timer, log the failure
    and raise the alert, and the timer never fires again; a status request
    that fails only writes to the console and leaves state and timer alone.
    Over all steps of the machine, the alert "Processing failed" is raised
    only by a response: for a response to a status poll, only by a body
    whose status is [failed]; otherwise by the [catch] block of
    [startEditing] for its own upload or start-processing request, in a
    step that leaves every timer as it is. *)
Theorem failure_only_from_status_poll :
  (forall m m1 t rid h data,
      reachable m ->
      pending m !! rid = Some (Some (PStatus h)) ->
      is_str (field data "status") (u "failed") = true ->
      summary_renders data = true ->
      step (t, HttpDone rid (HttpOk data)) m = Some m1 ->
      emitted m m1 = [ClearInterval h; Alert processing_failed]
      /\ status (app m1) = JStr (u "failed")
      /\ terminalLogs (app m1)
         = terminalLogs (app m) ++ [u "[AI] " ++ u "Processing failed " ++ ballot_x]
      /\ (exists iv1, intervals m1 !! h = Some iv1 /\ iv_active iv1 = false)
      /\ forall evs m',
           run evs m1 = Some m' ->
           fire_times h evs = [] /\ forall t', step (t', TimerFire h) m' = None)
  /\ (forall h err m,
         exec (poll_response h (HttpFail err)) m
         = with_trace (trace m ++ [(now m, ConsoleError (u "Status poll error:") err)]) m)
  /\ (forall t ev m m',
         step (t, ev) m = Some m' ->
         In (Alert processing_failed) (emitted m m') ->
         exists rid res k,
           ev = HttpDone rid res /\ pending m !! rid = Some (Some k)
           /\ (forall h, k = PStatus h ->
                 exists data, res = HttpOk data
                              /\ field data "status" = JStr (u "failed"))
           /\ ((forall h, k <> PStatus h) -> intervals m' = intervals m)).
Proof.
  split; [|split].
  - intros m m1 t rid h data Hreach Hp Hf Hr Hs.
    pose proof Hf as Hst. apply is_str_eq in Hst.
    destruct (terminal_response _ _ _ _ _ _ _ Hreach Hp Hst ltac:(by right) Hr Hs)
      as (He & Ha & iv1 & Hiv1 & Ha1).
    split; [exact He|]. rewrite Ha. unfold polled. cbn [status terminalLogs].
    rewrite Hst. split; [reflexivity|]. split; [reflexivity|].
    split; [by exists iv1|].
    intros evs m' Hrun.
    destruct (stopped_timer_run evs m1 m' h iv1 Hiv1 Ha1 Hrun)
      as ((iv' & Hiv' & Ha') & Hfire & _).
    split; [exact Hfire|]. intros t'. eapply stopped_timer_silent; eauto.
  - intros h err m. apply poll_response_rejected.
  - intros t ev m m' Hs Hin. apply step_outcome in Hs.
    destruct Hs; rewrite emitted_build in Hin; cbn [build intervals];
      try (cbn in Hin; exfalso; intuition discriminate).
    + exists rid, (HttpOk data), PUpload. repeat split; auto; discriminate.
    + exists rid, res, PUpload. repeat split; auto; discriminate.
    + exists rid, (HttpFail err), (PProcess projId). repeat split; auto; discriminate.
    + exists rid, (HttpOk data), (PStatus h). repeat split; auto.
      * intros h' _. exists data. split; [reflexivity|].
        unfold poll_effects in Hin.
        destruct (is_str (field data "status") (u "failed")) eqn:Hf.
        -- by apply is_str_eq.
        -- destruct (is_str (field data "status") (u "completed"));
             cbn in Hin; intuition discriminate.
      * intros Hk. by destruct (Hk h).
Qed.

Lemma failure_only_from_status_poll_witness :
  exists m m1,
    run (started_p1 ++ [(2004, TimerFire 0%nat)]) initial_machine = Some m
    /\ step (2005, HttpDone 2%nat (HttpOk (status_body "failed" 35))) m = Some m1
    /\ emitted m m1 = [ClearInterval 0; Alert processing_failed]
    /\ forall t', step (t', TimerFire 0%nat) m1 = None.
Proof.
  eexists. eexists.
  split; [vm_compute; reflexivity|]. split; [vm_compute; reflexivity|].
  match goal with
  | |- emitted ?m ?m1 = _ /\ _ =>
      pose proof (proj1 failure_only_from_status_poll m m1 2005 2%nat 0%nat
                    (status_body "failed" 35)) as T
  end.
  destruct T as (He & _ & _ & _ & Hlater).
  - exists (started_p1 ++ [(2004, TimerFire 0%nat)]). vm_compute. reflexivity.
  - reflexivity.
  - reflexivity.
  - reflexivity.
  - vm_compute. reflexivity.
  - split; [exact He|]. intros t'. exact (proj2 (Hlater [] _ eq_refl) t').
Defined.

(** C5 as stated does not hold.  (1) The one status poll of the Job is
    answered [failed] by a body whose [ai_analysis] has a [mode] without a
    string form: the component shows the status [failed], but the callback
    has raised before clearing the timer and before the alert, so the
    timer is still live and nothing but the console reports the failure.
    (2) While the Job [p1] is running and before any of its status polls, a
    second editing run is started and its upload is rejected: the alert
    "Processing failed" is raised, with the timer of [p1] live and no
    status response handled. *)
Lemma failure_signal_elsewhere :
  (exists m,
      run (one_poll (unrenderable_summary "failed")) initial_machine = Some m
      /\ status (app m) = JStr (u "failed")
      /\ map iv_active (intervals m) = [true]
      /\ map snd (trace m)
         = [ HttpPost upload_url (Some (upload_form clip (u " make it fun ")));
             HttpPost (u "http://localhost:8000/api/process/complete/p1") None;
             SetInterval 0 2000;
             HttpGet (u "http://localhost:8000/api/status/p1/detailed");
             ConsoleError (u "Status poll error:") cannot_convert ])
  /\ (exists m,
         run (second_upload (HttpFail {| message := u "Network Error" |}))
           initial_machine = Some m
         /\ status (app m) = JStr (u "processing")
         /\ map iv_active (intervals m) = [true]
         /\ map snd (trace m)
            = [ HttpPost upload_url (Some (upload_form clip (u " make it fun ")));
                HttpPost (u "http://localhost:8000/api/process/complete/p1") None;
                SetInterval 0 2000;
                HttpPost upload_url (Some (upload_form clip (u " make it fun ")));
                ConsoleError (u "Error:") {| message := u "Network Error" |};
                Alert processing_failed ]).
Proof.
  split; eexists; (split; [vm_compute; reflexivity|]); repeat split.
Qed.

(** ** The polling timer *)

(** C6.  When the start-processing request returns, [startEditing] goes on
    to register the polling timer of the project with a period of 2000 ms
    and leaves the progress as it is.  From then on the timer fires at
    2000, 4000, 6000, ... ms after that moment; as long as it is live it is
    never overdue and can fire when it is due; each firing issues exactly
    one status request, to
    http://localhost:8000/api/status/<identifier>/detailed (the identifier
    has a string form, from which the start-processing URL was made), and
    changes nothing in the component; and the stored progress changes only
    when the response to a status poll is handled. *)
Theorem polling_every_two_seconds
    (m m1 : Machine) (t : Z) (rid : nat) (projId data : jsval) :
  reachable m ->
  pending m !! rid = Some (Some (PProcess projId)) ->
  step (t, HttpDone rid (HttpOk data)) m = Some m1 ->
  let h := length (intervals m) in
  emitted m m1 = [SetInterval h 2000]
  /\ progress (app m1) = progress (app m)
  /\ forall evs m',
       run evs m1 = Some m' ->
       fire_times h evs
       = map (fun i => t + 2000 * Z.of_nat (S i)) (seq 0 (length (fire_times h evs)))
       /\ (forall iv, intervals m' !! h = Some iv -> iv_active iv = true ->
             now m' <= iv_next iv
             /\ (on_time (iv_next iv) m' = true ->
                 is_Some (step (iv_next iv, TimerFire h) m')))
       /\ (forall t' m2,
             step (t', TimerFire h) m' = Some m2 ->
             exists rendered,
               to_string projId = Some rendered
               /\ emitted m' m2
                  = [HttpGet (u "http://localhost:8000/api/status/" ++ rendered
                              ++ u "/detailed")]
               /\ app m2 = app m')
       /\ (forall t' ev m2,
             step (t', ev) m' = Some m2 ->
             progress (app m2) <> progress (app m') ->
             exists r res h',
               ev = HttpDone r res /\ pending m' !! r = Some (Some (PStatus h'))).
Proof.
  intros Hreach Hk Hs. cbv zeta.
  destruct (process_response_registers_timer _ _ _ _ _ _ Hk Hs) as (He & Hiv & Hp).
  destruct (proj2 (reachable_renders m Hreach) rid projId Hk) as [rendered Hr].
  split; [exact He|]. split; [exact Hp|].
  intros evs m' Hrun.
  destruct (run_timer evs m1 m' _ _ Hrun Hiv) as ((iv' & Hiv' & Hproj) & Hfire).
  cbn [iv_next iv_period iv_proj] in Hfire, Hproj.
  split; [|split; [|split]].
  - rewrite Hfire at 1. apply map_ext. intros i. lia.
  - intros iv Hx Ha.
    assert (Hreach' : reachable m').
    { eapply reachable_run; [|exact Hrun]. eapply reachable_step; eauto. }
    split; [by apply (proj2 (reachable_invariant m' Hreach') _ iv Hx)|].
    intros Hon. unfold step. cbn [fst snd]. rewrite Hon.
    cbn [handle intervals now with_now]. rewrite Hx, Ha, Z.eqb_refl. by eexists.
  - intros t' m2 Hs2. exists rendered. split; [exact Hr|].
    rewrite <- status_url_spelled.
    eapply (timer_fire_polls t'); [exact Hiv'|congruence|exact Hs2].
  - intros t' ev m2. apply step_progress.
Qed.

Lemma polling_every_two_seconds_witness :
  exists m m1,
    run (firstn 4 started_p1) initial_machine = Some m
    /\ step (4, HttpDone 1%nat (HttpOk JNull)) m = Some m1
    /\ emitted m m1 = [SetInterval 0 2000]
    /\ fire_times 0 [(2004, TimerFire 0%nat); (4004, TimerFire 0%nat)] = [2004; 4004].
Proof.
  eexists. eexists.
  split; [vm_compute; reflexivity|]. split; [vm_compute; reflexivity|].
  match goal with
  | |- emitted ?m ?m1 = _ /\ _ =>
      pose proof (polling_every_two_seconds m m1 4 1%nat (JStr (u "p1")) JNull) as T
  end.
  destruct T as (Hset & _ & Hlater).
  - exists (firstn 4 started_p1). vm_compute. reflexivity.
  - reflexivity.
  - vm_compute. reflexivity.
  - split; [exact Hset|].
    destruct (Hlater [(2004, TimerFire 0%nat); (4004, TimerFire 0%nat)] _
                ltac:(vm_compute; reflexivity)) as (Hfire & _).
    exact Hfire.
Defined.

(** ** The upload flow *)

(** C7.  A valid [startEditing] first issues the upload request to
    http://localhost:8000/api/upload/multiplatform, whose form carries the
    video file, the prompt and the platform list
    "youtube,instagram,tiktok".  The response to the upload yields the
    project identifier [data.project_id]; when it has a string form, the
    start-processing request is then issued to
    http://localhost:8000/api/process/complete/<identifier>, and the
    identifier is stored as [projectId] and parked with the request.  It
    stays parked until the start-processing response arrives; the timer
    registered then is the timer of that identifier and requests
    http://localhost:8000/api/status/<identifier>/detailed at each of its
    firings. *)
Theorem upload_flow_uses_project_id :
  (forall m file,
      videoFile (app m) = Some file ->
      trim (prompt (app m)) <> [] ->
      emitted m (exec startEditing m)
      = [HttpPost (u "http://localhost:8000/api/upload/multiplatform")
           (Some [ (u "video", FormFile file);
                   (u "prompt", FormText (prompt (app m)));
                   (u "platforms", FormText (u "youtube,instagram,tiktok")) ])]
      /\ pending (exec startEditing m) = pending m ++ [Some PUpload])
  /\ (forall t m m1 rid data projId rendered,
         pending m !! rid = Some (Some PUpload) ->
         get_prop data (u "project_id") = Some projId ->
         to_string projId = Some rendered ->
         step (t, HttpDone rid (HttpOk data)) m = Some m1 ->
         emitted m m1
         = [HttpPost (u "http://localhost:8000/api/process/complete/" ++ rendered) None]
         /\ projectId (app m1) = projId
         /\ pending m1 = <[rid := None]> (pending m) ++ [Some (PProcess projId)])
  /\ (forall t ev m m1 rid k,
         pending m !! rid = Some (Some k) ->
         step (t, ev) m = Some m1 ->
         (forall res, ev <> HttpDone rid res) ->
         pending m1 !! rid = Some (Some k))
  /\ (forall t m m1 rid data projId rendered,
         pending m !! rid = Some (Some (PProcess projId)) ->
         to_string projId = Some rendered ->
         step (t, HttpDone rid (HttpOk data)) m = Some m1 ->
         forall evs m' t' m2,
           run evs m1 = Some m' ->
           step (t', TimerFire (length (intervals m))) m' = Some m2 ->
           (exists iv, intervals m' !! length (intervals m) = Some iv
                       /\ iv_proj iv = projId)
           /\ emitted m' m2
              = [HttpGet (u "http://localhost:8000/api/status/" ++ rendered
                          ++ u "/detailed")]).
Proof.
  split; [|split; [|split]].
  - intros m file Hf Hp.
    destruct (startEditing_uploads m file Hf Hp) as (Ht & Hq).
    split; [|exact Hq]. by rewrite (emitted_app _ _ _ Ht).
  - intros t m m1 rid data projId rendered Hk Hid Hr Hs. apply step_outcome in Hs.
    inversion Hs; subst; other_rules.
    assert (projId0 = projId) as -> by congruence.
    assert (rendered0 = rendered) as -> by congruence.
    rewrite emitted_build, process_url_spelled. by repeat split.
  - intros t ev m m1 rid k. apply step_pending_kept.
  - intros t m m1 rid data projId rendered Hk Hr Hs evs m' t' m2 Hrun Hs2.
    destruct (process_response_registers_timer _ _ _ _ _ _ Hk Hs) as (_ & Hiv & _).
    destruct (run_timer evs m1 m' _ _ Hrun Hiv) as ((iv' & Hiv' & Hproj) & _).
    cbn [iv_proj] in Hproj. split; [by exists iv'|].
    rewrite <- status_url_spelled.
    eapply (timer_fire_polls t'); [exact Hiv'|congruence|exact Hs2].
Qed.

Lemma upload_flow_uses_project_id_witness :
  map snd (trace (default initial_machine
                    (run (started_p1 ++ [(2004, TimerFire 0%nat)]) initial_machine)))
  = [ HttpPost (u "http://localhost:8000/api/upload/multiplatform")
        (Some (upload_form clip (u " make it fun ")));
      HttpPost (u "http://localhost:8000/api/process/complete/p1") None;
      SetInterval 0 2000;
      HttpGet (u "http://localhost:8000/api/status/p1/detailed") ]
  /\ exists m,
       run (firstn 2 started_p1) initial_machine = Some m
       /\ emitted m (exec startEditing m)
          = [HttpPost (u "http://localhost:8000/api/upload/multiplatform")
               (Some (upload_form clip (u " make it fun ")))].
Proof.
  split; [vm_compute; reflexivity|].
  eexists. split; [vm_compute; reflexivity|].
  refine (proj1 (proj1 upload_flow_uses_project_id _ clip _ _)).
  - reflexivity.
  - vm_compute. discriminate.
Defined.

(** * Further properties of the component *)

(** What a step does to the terminal log: it logs some messages. *)
Lemma outcome_logs (t : Z) (ev : event) (m m' : Machine) :
  outcome_of t m ev m' ->
  exists msgs, terminalLogs (app m') = logged (terminalLogs (app m)) msgs.
Proof.
  intros Ho. destruct Ho; cbn [build app terminalLogs add_logs polled poll_aborted
    with_terminalLogs with_videoPreview with_videoFile with_prompt
    with_aiUnderstanding with_projectId with_status with_progress];
    first [by exists [] | by eexists].
Qed.

(** ** The chosen file and the typed prompt *)

(** X1.  After any run of events the component holds the file of the last
    file dialog that returned one (a cancelled dialog keeps the file chosen
    before) and the text of the last change of the prompt input: no
    response, timer or button changes either of them. *)
Theorem inputs_follow_ui_events (evs : list (Z * event)) (m m' : Machine) :
  run evs m = Some m' ->
  videoFile (app m') = chosen_file (videoFile (app m)) evs
  /\ prompt (app m') = typed_prompt (prompt (app m)) evs.
Proof.
  revert m. induction evs as [|[t ev] evs IH]; intros m H; cbn [run] in H.
  - by injection H as <-.
  - destruct (step (t, ev) m) as [m1|] eqn:Hs; [|discriminate].
    destruct (IH m1 H) as [Hf Hp]. rewrite Hf, Hp.
    apply step_outcome in Hs. unfold chosen_file, typed_prompt.
    destruct Hs; cbn; auto.
Qed.

Lemma inputs_follow_ui_events_witness :
  exists m,
    run (started_p1 ++ [(5, ChooseFile None []); (2004, TimerFire 0%nat)])
      initial_machine = Some m
    /\ videoFile (app m) = Some clip
    /\ prompt (app m) = u " make it fun ".
Proof.
  eexists. split; [vm_compute; reflexivity|].
  match goal with
  | |- videoFile (app ?m) = _ /\ _ =>
      exact (inputs_follow_ui_events
               (started_p1 ++ [(5, ChooseFile None []); (2004, TimerFire 0%nat)])
               initial_machine m ltac:(vm_compute; reflexivity))
  end.
Defined.

(** ** The terminal log *)

(** X2.  The terminal log only grows: after any run the log is the log
    before followed by the new lines, and every new line is "[AI] " followed
    by its message.  So every line of the log of a reachable machine has
    that form. *)
Theorem terminal_log_append_only (evs : list (Z * event)) (m m' : Machine) :
  run evs m = Some m' ->
  (exists msgs,
      terminalLogs (app m')
      = terminalLogs (app m) ++ map (fun msg => u "[AI] " ++ msg) msgs)
  /\ (m = initial_machine ->
      Forall (fun line => exists msg, line = u "[AI] " ++ msg) (terminalLogs (app m'))).
Proof.
  intros H.
  assert (Hgrow : exists msgs,
             terminalLogs (app m')
             = terminalLogs (app m) ++ map (fun msg => u "[AI] " ++ msg) msgs).
  { revert m H. induction evs as [|[t ev] evs IH]; intros m H; cbn [run] in H.
    - injection H as <-. exists []. by rewrite app_nil_r.
    - destruct (step (t, ev) m) as [m1|] eqn:Hs; [|discriminate].
      destruct (IH m1 H) as [msgs2 H2].
      destruct (outcome_logs _ _ _ _ (step_outcome _ _ _ _ Hs)) as [msgs1 H1].
      exists (msgs1 ++ msgs2). by rewrite H2, H1, logged_app, map_app, app_assoc. }
  split; [exact Hgrow|].
  intros ->. destruct Hgrow as [msgs ->]. apply Forall_app. split.
  - repeat constructor. by exists (u "System ready.").
  - apply Forall_forall. intros line Hin. apply list_elem_of_In, in_map_iff in Hin.
    destruct Hin as (msg & <- & _). by exists msg.
Qed.

Lemma terminal_log_append_only_witness :
  exists m,
    run started_p1 initial_machine = Some m
    /\ Forall (fun line => exists msg, line = u "[AI] " ++ msg) (terminalLogs (app m)).
Proof.
  eexists. split; [vm_compute; reflexivity|].
  match goal with
  | |- Forall _ (terminalLogs (app ?m)) =>
      exact (proj2 (terminal_log_append_only started_p1 initial_machine m
                      ltac:(vm_compute; reflexivity)) eq_refl)
  end.
Defined.

(** ** Which prompts pass the validation *)

Lemma trim_start_head (s : jstring) (c : N) (r : jstring) :
  trim_start s = c :: r -> is_js_space c = false.
Proof.
  induction s as [|x s IH]; cbn [trim_start]; [discriminate|].
  destruct (is_js_space x) eqn:Hx; [exact IH|]. intros [= <- _]. exact Hx.
Qed.

Lemma trim_start_nil (s : jstring) :
  trim_start s = [] <-> forallb is_js_space s = true.
Proof.
  induction s as [|x s IH]; cbn [trim_start forallb]; [done|].
  destruct (is_js_space x); cbn; [exact IH|]. split; discriminate.
Qed.

Lemma trim_nil (s : jstring) : trim s = [] <-> forallb is_js_space s = true.
Proof.
  unfold trim, trim_end. split.
  - intros H. apply (f_equal (@rev N)) in H. rewrite rev_involutive in H. cbn in H.
    destruct (trim_start s) as [|c r] eqn:Hs; [by apply trim_start_nil|].
    exfalso. apply trim_start_nil in H. rewrite forallb_forall in H.
    pose proof (trim_start_head _ _ _ Hs) as Hc.
    rewrite (H c) in Hc; [discriminate|]. apply in_rev. rewrite rev_involutive. by left.
  - intros H. apply trim_start_nil in H. by rewrite H.
Qed.

(** X3.  With a file chosen, [startEditing] uploads exactly when the prompt
    has a code unit that is not white space; a prompt of white space only
    (or empty) is refused with the alert.  The prompt is uploaded as typed,
    not trimmed. *)
Theorem prompt_validation (m : Machine) (file : File) :
  videoFile (app m) = Some file ->
  (forallb is_js_space (prompt (app m)) = true ->
   emitted m (exec startEditing m)
   = [Alert (u "Please enter a prompt describing what you want")]
   /\ pending (exec startEditing m) = pending m)
  /\ (forallb is_js_space (prompt (app m)) = false ->
      emitted m (exec startEditing m)
      = [HttpPost upload_url
           (Some [ (u "video", FormFile file);
                   (u "prompt", FormText (prompt (app m)));
                   (u "platforms", FormText (u "youtube,instagram,tiktok")) ])]
      /\ pending (exec startEditing m) = pending m ++ [Some PUpload]).
Proof.
  intros Hf. split; intros Hp.
  - rewrite (startEditing_blank_prompt m file Hf (proj2 (trim_nil _) Hp)).
    split; [|reflexivity].
    by rewrite (emitted_app m _
                  [(now m, Alert (u "Please enter a prompt describing what you want"))]).
  - assert (Hne : trim (prompt (app m)) <> []).
    { intros H. apply trim_nil in H. congruence. }
    destruct (startEditing_uploads m file Hf Hne) as (Ht & Hq).
    split; [|exact Hq]. by rewrite (emitted_app _ _ _ Ht).
Qed.

Lemma prompt_validation_witness :
  let m := with_app (fun a => with_prompt [9; 32; 160; 8232]%N
                                (with_videoFile (Some clip) a)) initial_machine in
  emitted m (exec startEditing m)
  = [Alert (u "Please enter a prompt describing what you want")]
  /\ pending (exec startEditing m) = pending m.
Proof.
  cbv zeta.
  apply (proj1 (prompt_validation
                  (with_app (fun a => with_prompt [9; 32; 160; 8232]%N
                                        (with_videoFile (Some clip) a)) initial_machine)
                  clip eq_refl)).
  reflexivity.
Defined.

(** ** Failed requests of [startEditing] *)

(** X4.  When the upload is rejected, or answered by a body that is [null]
    or [undefined], and when the start-processing request is rejected, the
    [catch] block of [startEditing] runs: the error goes to the console, the
    line "Error: " with its message to the log, and the alert is raised.
    Nothing else happens: no request is issued, no timer is registered, and
    project identifier, status, progress and outputs stay as they were. *)
Theorem startEditing_failure
    (t : Z) (m m' : Machine) (rid : nat) (res : http_result) (k : Pending) (err : Error) :
  pending m !! rid = Some (Some k) ->
  (k = PUpload /\ request_error res "project_id" = Some err)
  \/ (exists projId, k = PProcess projId /\ res = HttpFail err) ->
  step (t, HttpDone rid res) m = Some m' ->
  emitted m m' = [ConsoleError (u "Error:") err; Alert processing_failed]
  /\ terminalLogs (app m')
     = terminalLogs (app m) ++ [u "[AI] " ++ u "Error: " ++ message err]
  /\ pending m' = <[rid := None]> (pending m)
  /\ intervals m' = intervals m
  /\ projectId (app m') = projectId (app m)
  /\ status (app m') = status (app m)
  /\ progress (app m') = progress (app m)
  /\ outputs (app m') = outputs (app m).
Proof.
  intros Hk Hfail Hs. apply step_outcome in Hs.
  inversion Hs; subst; rewrite ?emitted_build; cbn [build app pending intervals];
    destruct Hfail as [[-> He]|(p & -> & Hres)];
    other_rules.
  - assert (err0 = err) as -> by congruence. repeat split.
  - assert (err0 = err) as -> by congruence. repeat split.
Qed.

Lemma startEditing_failure_witness :
  exists m m',
    run (firstn 3 started_p1) initial_machine = Some m
    /\ step (3, HttpDone 0%nat (HttpOk JNull)) m = Some m'
    /\ emitted m m'
       = [ConsoleError (u "Error:") (type_error JNull (u "project_id"));
          Alert processing_failed]
    /\ pending m' = [None].
Proof.
  eexists. eexists.
  split; [vm_compute; reflexivity|]. split; [vm_compute; reflexivity|].
  match goal with
  | |- emitted ?m ?m' = _ /\ _ =>
      pose proof (startEditing_failure 3 m m' 0%nat (HttpOk JNull) PUpload
                    (type_error JNull (u "project_id"))) as T
  end.
  destruct T as (He & _ & Hp & _).
  - reflexivity.
  - left. split; reflexivity.
  - vm_compute. reflexivity.
  - split; [exact He|exact Hp].
Defined.

(** ** An upload response without a project identifier *)

Lemma lookup_field_absent (k : jstring) (fs : list (jstring * jsval)) :
  Forall (fun kv => jstr_eqb (fst kv) k = false) fs -> lookup_field k fs = JUndef.
Proof.
  induction 1 as [|[k' v] fs Hk _ IH]; [reflexivity|].
  cbn [lookup_field]. rewrite IH. cbn in Hk. by rewrite Hk.
Qed.

(** X5.  When the upload is answered by an object without [project_id], no
    error is raised: [startEditing] stores [undefined] as the project
    identifier and asks to process the project "undefined".  With the
    identifier unset, [downloadVideo] then does nothing. *)
Theorem upload_without_project_id
    (t : Z) (m m' : Machine) (rid : nat) (fs : list (jstring * jsval)) :
  pending m !! rid = Some (Some PUpload) ->
  Forall (fun kv => jstr_eqb (fst kv) (u "project_id") = false) fs ->
  step (t, HttpDone rid (HttpOk (JObj fs))) m = Some m' ->
  emitted m m' = [HttpPost (API_BASE ++ u "/api/process/complete/undefined") None]
  /\ projectId (app m') = JUndef
  /\ pending m' = <[rid := None]> (pending m) ++ [Some (PProcess JUndef)]
  /\ forall platform, exec (downloadVideo platform) m' = m'.
Proof.
  intros Hk Habs Hs. apply step_outcome in Hs.
  pose proof (lookup_field_absent _ _ Habs) as Hun.
  inversion Hs; subst; rewrite ?emitted_build; cbn [build app pending];
    try congruence; cbn [request_error get_prop] in *; try discriminate;
    match goal with H : Some _ = Some _ |- _ => rewrite Hun in H; injection H as <- end;
    try discriminate.
  match goal with H : to_string JUndef = Some _ |- _ => injection H as <- end.
  repeat split.
Qed.

Lemma upload_without_project_id_witness :
  exists m m',
    run (firstn 3 started_p1) initial_machine = Some m
    /\ step (3, HttpDone 0%nat (HttpOk (JObj [(u "id", JNum 7)]))) m = Some m'
    /\ emitted m m' = [HttpPost (API_BASE ++ u "/api/process/complete/undefined") None]
    /\ projectId (app m') = JUndef.
Proof.
  eexists. eexists.
  split; [vm_compute; reflexivity|]. split; [vm_compute; reflexivity|].
  match goal with
  | |- emitted ?m ?m' = _ /\ _ =>
      pose proof (upload_without_project_id 3 m m' 0%nat [(u "id", JNum 7)]) as T
  end.
  destruct T as (He & Hp & _).
  - reflexivity.
  - repeat constructor.
  - vm_compute. reflexivity.
  - split; [exact He|exact Hp].
Defined.

(** ** What stops a polling timer *)

(** X6.  A live polling timer is stopped by one thing only: the handling of
    a response to one of its own status polls whose body says [completed]
    or [failed].  A rejected poll, an unreadable body, any other status, a
    new editing run and the responses of other timers all leave it live. *)
Theorem polling_stops_only_at_terminal_status
    (t : Z) (ev : event) (m m' : Machine) (h : nat) (iv iv' : Interval) :
  step (t, ev) m = Some m' ->
  intervals m !! h = Some iv -> iv_active iv = true ->
  intervals m' !! h = Some iv' -> iv_active iv' = false ->
  exists rid data lit,
    ev = HttpDone rid (HttpOk data)
    /\ pending m !! rid = Some (Some (PStatus h))
    /\ field data "status" = JStr lit
    /\ (lit = u "completed" \/ lit = u "failed").
Proof.
  intros Hs Hiv Ha Hiv' Ha'.
  assert (Hlt : (h < length (intervals m))%nat) by (eapply lookup_lt_Some; eauto).
  destruct (outcome_intervals _ _ _ _ (step_outcome _ _ _ _ Hs))
    as [Hi|[(h' & iv0 & _ & H0 & Ha0 & _ & Hi)
           |[(rid & p & data & _ & _ & Hi)|(rid & h' & data & lit & -> & Hp & Hst & Hlit & _ & Hi)]]];
    rewrite Hi in Hiv'.
  - congruence.
  - (* the firing of a timer re-arms it *)
    destruct (decide (h' = h)) as [->|Hne].
    + rewrite list_lookup_insert_eq in Hiv' by done.
      injection Hiv' as <-. cbn in Ha'. congruence.
    + rewrite list_lookup_insert_ne in Hiv' by done. congruence.
  - (* a new timer is appended *)
    rewrite lookup_app_l in Hiv' by done. congruence.
  - (* a status response *)
    destruct (decide (h' = h)) as [->|Hne];
      [|rewrite list_lookup_alter_ne in Hiv' by done; congruence].
    by exists rid, data, lit.
Qed.

Lemma polling_stops_only_at_terminal_status_witness :
  exists m m',
    run (started_p1 ++ [(2004, TimerFire 0%nat)]) initial_machine = Some m
    /\ step (2005, HttpDone 2%nat (HttpOk (status_body "failed" 35))) m = Some m'
    /\ exists rid data lit,
         HttpDone 2%nat (HttpOk (status_body "failed" 35)) = HttpDone rid (HttpOk data)
         /\ pending m !! rid = Some (Some (PStatus 0%nat))
         /\ field data "status" = JStr lit
         /\ (lit = u "completed" \/ lit = u "failed").
Proof.
  eexists. eexists.
  split; [vm_compute; reflexivity|]. split; [vm_compute; reflexivity|].
  eapply (polling_stops_only_at_terminal_status 2005 _ _ _ 0%nat).
  - vm_compute. reflexivity.
  - vm_compute. reflexivity.
  - reflexivity.
  - vm_compute. reflexivity.
  - reflexivity.
Defined.

(** ** How much a status response logs *)

Lemma status_logs_length (st : jsval) : length (status_logs st) = lines_logged st.
Proof.
  unfold status_logs, lines_logged. rewrite !length_app.
  by destruct (is_str st (u "analyzing")), (is_str st (u "processing")),
       (is_str st (u "completed")), (is_str st (u "failed")).
Qed.

Lemma logged_length (logs msgs : list jstring) :
  length (logged logs msgs) = (length logs + length msgs)%nat.
Proof. by rewrite logged_app, length_app, length_map. Qed.

(** X7.  Every status response that the callback handles to the end
    appends its lines to the log again: one for [analyzing], ten for
    [processing], two for [completed], one for [failed], none for any other
    status.  A Job that is reported [processing] by n such polls therefore
    adds 10 n lines to the log.  A response at whose summary the callback
    raises logs nothing. *)
Theorem status_polls_repeat_their_log_lines (h : nat) (m : Machine) :
  (forall data st,
      get_prop data (u "status") = Some st ->
      summary_renders data = true ->
      length (terminalLogs (app (exec (poll_response h (HttpOk data)) m)))
      = (length (terminalLogs (app m)) + lines_logged st)%nat)
  /\ (forall bodies,
         Forall (fun data => field data "status" = JStr (u "processing")
                             /\ summary_renders data = true) bodies ->
         length (terminalLogs (app (handled h bodies m)))
         = (length (terminalLogs (app m)) + 10 * length bodies)%nat)
  /\ (forall data,
         summary_renders data = false ->
         terminalLogs (app (exec (poll_response h (HttpOk data)) m))
         = terminalLogs (app m)).
Proof.
  assert (One : forall m data st,
             get_prop data (u "status") = Some st ->
             summary_renders data = true ->
             length (terminalLogs (app (exec (poll_response h (HttpOk data)) m)))
             = (length (terminalLogs (app m)) + lines_logged st)%nat).
  { intros m0 data st Hst Hr. rewrite exec_poll_response, Hst.
    unfold after_poll. rewrite Hr. cbn [app terminalLogs polled].
    rewrite logged_length, status_logs_length.
    by rewrite (get_prop_field _ _ _ Hst). }
  split; [apply One|]. split.
  - intros bodies Hb. revert m.
    induction Hb as [|data bodies [Hst Hr] _ IH]; intros m; cbn; [lia|].
    unfold handled in IH. rewrite IH.
    rewrite (One m data (field data "status")).
    + rewrite Hst. change (lines_logged (JStr (u "processing"))) with 10%nat. lia.
    + apply (field_status_readable data (u "processing")). by rewrite Hst.
    + exact Hr.
  - intros data Hr. rewrite exec_poll_response.
    destruct (get_prop data (u "status")); [|reflexivity].
    unfold after_poll. by rewrite Hr.
Qed.

Lemma status_polls_repeat_their_log_lines_witness :
  length (terminalLogs
            (app (handled 0 [status_body "processing" 30; status_body "processing" 30;
                             status_body "processing" 30] initial_machine)))
  = 31%nat.
Proof.
  apply (proj1 (proj2 (status_polls_repeat_their_log_lines 0 initial_machine))
           [status_body "processing" 30; status_body "processing" 30;
            status_body "processing" 30]).
  repeat constructor.
Defined.

(** ** The outputs *)

Lemma step_outputs (t : Z) (ev : event) (m m' : Machine) :
  step (t, ev) m = Some m' ->
  outputs (app m') = outputs (app m)
  \/ exists ov, outputs (app m')
                = {| youtube := ov; instagram := ov; tiktok := ov; master := ov |}.
Proof.
  intros Hs. apply step_outcome in Hs.
  destruct Hs; cbn [build app outputs add_logs polled poll_aborted with_terminalLogs
    with_videoPreview with_videoFile with_prompt with_aiUnderstanding
    with_projectId with_status with_progress]; auto.
  destruct (is_str (field data "status") (u "completed")); eauto.
Qed.

(** X8.  The outputs change only when a status response says [completed],
    and then all four are set to the same value; so in every reachable
    machine the outputs of [youtube], [instagram], [tiktok] and [master] are
    one and the same value. *)
Theorem outputs_agree :
  (forall t ev m m',
      step (t, ev) m = Some m' ->
      outputs (app m') <> outputs (app m) ->
      exists rid h data,
        ev = HttpDone rid (HttpOk data)
        /\ pending m !! rid = Some (Some (PStatus h))
        /\ field data "status" = JStr (u "completed")
        /\ outputs (app m')
           = {| youtube := field data "output_video";
                instagram := field data "output_video";
                tiktok := field data "output_video";
                master := field data "output_video" |})
  /\ (forall m,
         reachable m ->
         youtube (outputs (app m)) = master (outputs (app m))
         /\ instagram (outputs (app m)) = master (outputs (app m))
         /\ tiktok (outputs (app m)) = master (outputs (app m))).
Proof.
  split.
  - intros t ev m m' Hs Hne. apply step_outcome in Hs.
    destruct Hs; cbn [build app outputs add_logs polled poll_aborted with_terminalLogs
      with_videoPreview with_videoFile with_prompt with_aiUnderstanding
      with_projectId with_status with_progress] in Hne |- *; try congruence.
    destruct (is_str (field data "status") (u "completed")) eqn:Hc; [|congruence].
    exists rid, h, data. apply is_str_eq in Hc. auto.
  - apply reachable_ind; [done|].
    intros t ev m m' Inv Hs.
    destruct (step_outputs _ _ _ _ Hs) as [-> | [ov ->]]; [exact Inv|done].
Qed.

Lemma outputs_agree_witness :
  exists m,
    run completed_without_output initial_machine = Some m
    /\ youtube (outputs (app m)) = master (outputs (app m)).
Proof.
  eexists. split; [vm_compute; reflexivity|].
  match goal with
  | |- youtube (outputs (app ?m)) = _ =>
      assert (Hr : reachable m)
        by (exists completed_without_output; vm_compute; reflexivity);
      exact (proj1 (proj2 outputs_agree m Hr))
  end.
Defined.

(** ** The stored progress *)

Lemma js_or_zero (v : jsval) :
  js_or v (JNum 0) = JNum 0 \/ truthy (js_or v (JNum 0)) = true.
Proof. unfold js_or. destruct (truthy v) eqn:H; auto. Qed.

(** X9.  The stored progress is never a falsy value other than the number
    0: every reachable machine holds either 0 or a truthy value, whatever
    the status responses carried ([undefined], [null], [false], the empty
    string and 0 are all stored as 0). *)
Theorem progress_zero_or_truthy (m : Machine) :
  reachable m ->
  progress (app m) = JNum 0 \/ truthy (progress (app m)) = true.
Proof.
  revert m. apply reachable_ind; [by left|].
  intros t ev m m' Inv Hs. apply step_outcome in Hs.
  destruct Hs; cbn [build app progress add_logs polled poll_aborted with_terminalLogs
    with_videoPreview with_videoFile with_prompt with_aiUnderstanding
    with_projectId with_status with_progress]; try exact Inv; apply js_or_zero.
Qed.

Lemma progress_zero_or_truthy_witness :
  exists m,
    run (started_p1 ++ [(2004, TimerFire 0%nat);
                        (2005, HttpDone 2%nat
                                 (HttpOk (JObj [(u "status", JStr (u "processing"));
                                                (u "progress_percentage", JStr [])])))])
      initial_machine = Some m
    /\ (progress (app m) = JNum 0 \/ truthy (progress (app m)) = true).
Proof.
  eexists. split; [vm_compute; reflexivity|].
  match goal with
  | |- progress (app ?m) = _ \/ _ =>
      assert (Hr : reachable m)
        by (exists (started_p1
                    ++ [(2004, TimerFire 0%nat);
                        (2005, HttpDone 2%nat
                                 (HttpOk (JObj [(u "status", JStr (u "processing"));
                                                (u "progress_percentage", JStr [])])))]);
            vm_compute; reflexivity);
      exact (progress_zero_or_truthy m Hr)
  end.
Defined.

(** ** The project identifier *)

(** X10.  The project identifier changes in one place only: when the
    response to an upload is handled and its body can be read, and then it
    becomes [data.project_id].  Status responses, start-processing
    responses, timers, downloads and a new click on "Start Editing" leave
    it alone; in particular a failed run does not reset it. *)
Theorem projectId_set_by_upload_response (t : Z) (ev : event) (m m' : Machine) :
  step (t, ev) m = Some m' ->
  projectId (app m') <> projectId (app m) ->
  exists rid data,
    ev = HttpDone rid (HttpOk data)
    /\ pending m !! rid = Some (Some PUpload)
    /\ get_prop data (u "project_id") = Some (projectId (app m')).
Proof.
  intros Hs Hne. apply step_outcome in Hs.
  destruct Hs; cbn [build app projectId add_logs polled poll_aborted with_terminalLogs
    with_videoPreview with_videoFile with_prompt with_aiUnderstanding
    with_projectId with_status with_progress] in Hne |- *; try congruence.
  - by exists rid, data.
  - by exists rid, data.
Qed.

Lemma projectId_set_by_upload_response_witness :
  exists m m',
    run (firstn 3 started_p1) initial_machine = Some m
    /\ step (3, HttpDone 0%nat (HttpOk (JObj [(u "project_id", JStr (u "p1"))]))) m
       = Some m'
    /\ exists rid data,
         HttpDone 0%nat (HttpOk (JObj [(u "project_id", JStr (u "p1"))]))
         = HttpDone rid (HttpOk data)
         /\ pending m !! rid = Some (Some PUpload)
         /\ get_prop data (u "project_id") = Some (projectId (app m')).
Proof.
  eexists. eexists.
  split; [vm_compute; reflexivity|]. split; [vm_compute; reflexivity|].
  eapply (projectId_set_by_upload_response 3).
  - vm_compute. reflexivity.
  - vm_compute. discriminate.
Defined.

(** ** Downloads during a new run *)

(** X11.  The response to the upload of a new run changes the project
    identifier and leaves status and outputs as they are: with the results
    of a finished run still in place, [downloadVideo] from then on asks for
    the download of the new project, whose processing has not started
    yet. *)
Theorem downloads_during_new_run
    (t : Z) (m m1 : Machine) (rid : nat) (data projId : jsval) (rendered : jstring) :
  pending m !! rid = Some (Some PUpload) ->
  get_prop data (u "project_id") = Some projId ->
  truthy projId = true ->
  to_string projId = Some rendered ->
  step (t, HttpDone rid (HttpOk data)) m = Some m1 ->
  status (app m1) = status (app m)
  /\ outputs (app m1) = outputs (app m)
  /\ projectId (app m1) = projId
  /\ forall platform,
       emitted m1 (exec (downloadVideo platform) m1)
       = [WindowOpen
            (u "http://localhost:8000/api/download/" ++ rendered ++ u "/" ++ platform)
            (u "_blank")].
Proof.
  intros Hk Hp Htr Hr Hs. apply step_outcome in Hs.
  inversion Hs; subst; other_rules.
  assert (projId0 = projId) as -> by congruence.
  cbn [build app status outputs projectId add_logs with_terminalLogs with_projectId].
  repeat split. intros platform. rewrite exec_downloadVideo.
  cbn [build app projectId add_logs with_terminalLogs with_projectId].
  by rewrite Htr, Hr, emitted_build.
Qed.

Lemma downloads_during_new_run_witness :
  exists m m1,
    run (one_poll (JObj [(u "status", JStr (u "completed"));
                         (u "output_video", JStr (u "out/p1.mp4"))])
         ++ [(2006, ClickStart)])
      initial_machine = Some m
    /\ step (2007, HttpDone 3%nat (HttpOk (JObj [(u "project_id", JStr (u "p2"))]))) m
       = Some m1
    /\ status (app m1) = JStr (u "completed")
    /\ master (outputs (app m1)) = JStr (u "out/p1.mp4")
    /\ emitted m1 (exec (downloadVideo (u "master")) m1)
       = [WindowOpen (u "http://localhost:8000/api/download/p2/master") (u "_blank")].
Proof.
  eexists. eexists.
  split; [vm_compute; reflexivity|].
  match goal with
  | |- step ?te ?m = Some ?m1 /\ _ =>
      assert (Hs : step te m = Some m1) by (vm_compute; reflexivity);
      split; [exact Hs|];
      destruct (downloads_during_new_run 2007 m m1 3%nat
                  (JObj [(u "project_id", JStr (u "p2"))]) (JStr (u "p2")) (u "p2")
                  eq_refl eq_refl eq_refl eq_refl Hs) as (_ & _ & _ & Hd)
  end.
  split; [reflexivity|]. split; [reflexivity|]. exact (Hd (u "master")).
Defined.

(** ** The order of the requests *)

(** X12.  In the trace of every reachable machine, each status request is
    for a project whose start-processing request was issued earlier, and
    each start-processing request comes after an upload request: the
    component never polls a project it has not asked to process, and never
    asks to process without having uploaded. *)
Theorem requests_in_order (m : Machine) :
  reachable m ->
  (forall i t url,
      trace m !! i = Some (t, HttpGet url) ->
      exists projId,
        url = status_url projId
        /\ issued_before m i (HttpPost (process_url projId) None))
  /\ (forall i t url,
         trace m !! i = Some (t, HttpPost url None) ->
         exists projId form,
           url = process_url projId
           /\ issued_before m i (HttpPost upload_url (Some form))).
Proof.
  intros Hr. destruct (reachable_ordered m Hr) as (_ & _ & _ & HD & HE). by split.
Qed.

Lemma requests_in_order_witness :
  exists m,
    run (started_p1 ++ [(2004, TimerFire 0%nat)]) initial_machine = Some m
    /\ exists projId,
         status_url (u "p1") = status_url projId
         /\ issued_before m 3 (HttpPost (process_url projId) None).
Proof.
  eexists. split; [vm_compute; reflexivity|].
  match goal with
  | |- exists projId, _ /\ issued_before ?m _ _ =>
      assert (Hr : reachable m)
        by (exists (started_p1 ++ [(2004, TimerFire 0%nat)]); vm_compute; reflexivity);
      exact (proj1 (requests_in_order m Hr) 3%nat 2004 (status_url (u "p1")) eq_refl)
  end.
Defined.

(** ** URLs and project identifiers *)

(** X13.  The start-processing URL and the status URL determine the
    project identifier as it is written into them, and for one project the
    download URL determines the platform: two projects whose identifiers
    have different string forms are never processed or polled at the same
    URL, and different platforms have different download URLs.  Two
    identifiers with the same string form, such as the number 7 and the
    string "7", share their URLs. *)
Theorem urls_identify_project :
  (forall p q, process_url p = process_url q -> p = q)
  /\ (forall p q, status_url p = status_url q -> p = q)
  /\ (forall p a b, download_url p a = download_url p b -> a = b)
  /\ (forall v w p q,
         to_string v = Some p -> to_string w = Some q ->
         process_url p = process_url q \/ status_url p = status_url q ->
         to_string v = to_string w).
Proof.
  assert (P : forall p q, process_url p = process_url q -> p = q).
  { unfold process_url. intros p q H. apply app_inv_head in H. by apply app_inv_head in H. }
  assert (S : forall p q, status_url p = status_url q -> p = q).
  { unfold status_url. intros p q H.
    apply app_inv_head in H. apply app_inv_head in H. by apply app_inv_tail in H. }
  split; [exact P|]. split; [exact S|]. split.
  - unfold download_url. intros p a b H.
    by do 4 apply app_inv_head in H.
  - intros v w p q -> -> [H|H]; f_equal; auto.
Qed.

Lemma urls_identify_project_witness : to_string (JNum 7) = to_string (JStr (u "7")).
Proof.
  apply (proj2 (proj2 (proj2 urls_identify_project)) (JNum 7) (JStr (u "7"))
           (u "7") (u "7") eq_refl eq_refl).
  left. reflexivity.
Defined.

(** ** Identifiers and summaries without a string form *)

(** X14.  When the upload is answered with a project identifier that has no
    string form, the identifier is stored and the two lines of a successful
    upload are logged; then making the start-processing URL raises and the
    [catch] block runs: the error goes to the console, an "Error: " line to
    the log, and the alert is raised.  No start-processing request is
    issued, nothing is parked and no timer is registered; and
    [downloadVideo] afterwards opens nothing. *)
Theorem upload_with_unrenderable_project_id
    (t : Z) (m m' : Machine) (rid : nat) (data projId : jsval) :
  pending m !! rid = Some (Some PUpload) ->
  get_prop data (u "project_id") = Some projId ->
  to_string projId = None ->
  step (t, HttpDone rid (HttpOk data)) m = Some m' ->
  projectId (app m') = projId
  /\ emitted m m' = [ConsoleError (u "Error:") cannot_convert; Alert processing_failed]
  /\ terminalLogs (app m')
     = terminalLogs (app m)
       ++ [ u "[AI] " ++ u "Video uploaded successfully!";
            u "[AI] " ++ u "Starting AI analysis...";
            u "[AI] " ++ u "Error: " ++ message cannot_convert ]
  /\ pending m' = <[rid := None]> (pending m)
  /\ intervals m' = intervals m
  /\ status (app m') = status (app m)
  /\ forall platform, emitted m' (exec (downloadVideo platform) m') = [].
Proof.
  intros Hk Hp Hr Hs. apply step_outcome in Hs.
  inversion Hs; subst; other_rules.
  assert (projId0 = projId) as -> by congruence.
  rewrite emitted_build.
  cbn [build app status projectId terminalLogs pending intervals add_logs
       with_terminalLogs with_projectId].
  rewrite logged_app. repeat split.
  intros platform. rewrite exec_downloadVideo.
  cbn [build app projectId add_logs with_terminalLogs with_projectId].
  rewrite Hr. destruct (truthy projId); by apply emitted_same.
Qed.

Lemma upload_with_unrenderable_project_id_witness :
  exists m m',
    run (firstn 3 (uploaded_as unrenderable)) initial_machine = Some m
    /\ step (3, HttpDone 0%nat (HttpOk (JObj [(u "project_id", unrenderable)]))) m
       = Some m'
    /\ projectId (app m') = unrenderable
    /\ emitted m m' = [ConsoleError (u "Error:") cannot_convert; Alert processing_failed].
Proof.
  eexists. eexists.
  split; [vm_compute; reflexivity|].
  match goal with
  | |- step ?te ?m = Some ?m' /\ _ =>
      assert (Hs : step te m = Some m') by (vm_compute; reflexivity);
      split; [exact Hs|];
      destruct (upload_with_unrenderable_project_id 3 m m' 0%nat
                  (JObj [(u "project_id", unrenderable)]) unrenderable
                  eq_refl eq_refl eq_refl Hs) as (Hp & He & _)
  end.
  split; [exact Hp|exact He].
Defined.

(** X15.  When a status response carries an [ai_analysis] with a [mode],
    [detected_emotion] or [operations_count] that has no string form, the
    callback has stored the status and the progress of the body when it
    raises, and nothing else happens: the error goes to the console; the
    summary, the log and the outputs stay as they were; and every timer is
    left as it is, also when the status is [completed] or [failed], so that
    the polling goes on. *)
Theorem status_response_without_summary
    (t : Z) (m m' : Machine) (rid h : nat) (data st : jsval) :
  pending m !! rid = Some (Some (PStatus h)) ->
  get_prop data (u "status") = Some st ->
  summary_renders data = false ->
  step (t, HttpDone rid (HttpOk data)) m = Some m' ->
  status (app m') = st
  /\ progress (app m') = reported data
  /\ emitted m m' = [ConsoleError (u "Status poll error:") cannot_convert]
  /\ aiUnderstanding (app m') = aiUnderstanding (app m)
  /\ terminalLogs (app m') = terminalLogs (app m)
  /\ outputs (app m') = outputs (app m)
  /\ intervals m' = intervals m.
Proof.
  intros Hk Hst Hr Hs. apply step_outcome in Hs.
  inversion Hs; subst; other_rules.
  rewrite emitted_build.
  cbn [build app status progress aiUnderstanding terminalLogs outputs intervals
       poll_aborted with_progress with_status].
  by rewrite (get_prop_field _ _ _ Hst).
Qed.

Lemma status_response_without_summary_witness :
  exists m m',
    run (started_p1 ++ [(2004, TimerFire 0%nat)]) initial_machine = Some m
    /\ step (2005, HttpDone 2%nat (HttpOk (unrenderable_summary "failed"))) m = Some m'
    /\ status (app m') = JStr (u "failed")
    /\ intervals m' = intervals m.
Proof.
  eexists. eexists.
  split; [vm_compute; reflexivity|].
  match goal with
  | |- step ?te ?m = Some ?m' /\ _ =>
      assert (Hs : step te m = Some m') by (vm_compute; reflexivity);
      split; [exact Hs|];
      destruct (status_response_without_summary 2005 m m' 2%nat 0%nat
                  (unrenderable_summary "failed") (JStr (u "failed"))
                  eq_refl eq_refl eq_refl Hs) as (H1 & _ & _ & _ & _ & _ & H2)
  end.
  split; [exact H1|exact H2].
Defined.
